(** * bip322: address helpers, witness codec and signature verification

    A shallow embedding of the TypeScript sources of the repository.

    Translated from the sources, function by function:
    - [src/helpers/Address.ts] (class [Address]), in [Module Address];
    - the helper [generateCompatibleSignatures] of the verifier's tests, in
      [Module VerifierTest].

    Written from the specification, because the files are not among the
    sources (each definition says so):
    - the witness codec [Witness] with [CompactSize] and [Base64];
    - [Verifier.verifySignature] with the legacy (BIP-137) verifier; the
      BIP-322 verifier is left a parameter.

    bitcoinjs-lib, elliptic and the cryptographic provider are external:
    their functions are the fields of the classes [BitcoinLib],
    [EllipticLib] and [CryptoLib], and every theorem holds for all of them.

    JavaScript strings are modelled by [string] (one character per code
    unit; Bitcoin addresses are ASCII), [Buffer]s by lists of bytes, and a
    call that may throw by the [result] type below. *)

From Stdlib Require Import NArith ZArith List Strings.String Strings.Ascii Strings.Byte Bool Lia.
Import ListNotations.

(** ** Values and exceptions *)

Definition bytes := list byte.

(** A JavaScript exception: [new Error(message)]. *)
Inductive exn : Type :=
| Error (message : string).

(** The outcome of a call: a returned value or a thrown exception. *)
Inductive result (E A : Type) : Type :=
| Ok (a : A)
| Throw (e : E).
Arguments Ok {E A} a.
Arguments Throw {E A} e.

Definition bind {E A B} (m : result E A) (k : A -> result E B) : result E B :=
  match m with
  | Ok a => k a
  | Throw e => Throw e
  end.

Declare Scope result_scope.
Delimit Scope result_scope with result.
Notation "x <- m ;; k" := (bind m (fun x => k))
  (at level 61, m at next level, right associativity) : result_scope.
Open Scope result_scope.

Definition is_ok {E A} (m : result E A) : bool :=
  match m with
  | Ok _ => true
  | Throw _ => false
  end.

(** [s[i] === c] on a JavaScript string: [s[i]] is [undefined] past the end. *)
Definition char_is (s : string) (i : nat) (c : ascii) : bool :=
  match String.get i s with
  | Some c' => Ascii.eqb c' c
  | None => false
  end.

(** [s.slice(0, n)]. *)
Definition slice0 (n : nat) (s : string) : string := String.substring 0 n s.

(** [buf[i] === b] on a [Buffer]. *)
Definition byte_is (buf : bytes) (i : nat) (b : byte) : bool :=
  match nth_error buf i with
  | Some b' => Byte.eqb b' b
  | None => false
  end.

(** ** The part of bitcoinjs-lib the helpers call *)

(** [bitcoin.networks.bitcoin], [.testnet], [.regtest]. *)
Inductive network : Type := bitcoin | testnet | regtest.

(** The payment constructors [bitcoin.payments.p2pkh], ... *)
Inductive paymentKind : Type := p2pkh | p2sh | p2wpkh | p2wsh | p2tr.

(** The fields of a payment object that the helpers read. *)
Record Payment : Type := mkPayment {
  pay_address : string;
  pay_output : bytes
}.

(** The option a payment is built from: [{ address }], [{ pubkey }],
    [{ redeem }] or [{ internalPubkey }]. *)
Inductive paymentOpts : Type :=
| WithAddress (a : string)
| WithPubkey (pubkey : bytes)
| WithRedeem (redeem : Payment)
| WithInternalPubkey (internalPubkey : bytes).

(** bitcoinjs-lib is an external collaborator: its functions are taken as
    they are, each call either returning or throwing. *)
Class BitcoinLib : Type := {
  (** [bitcoin.address.toOutputScript(address, network)] *)
  toOutputScript : string -> network -> result exn bytes;
  (** [bitcoin.payments.<kind>({ <opts>, network })] *)
  payments : paymentKind -> paymentOpts -> network -> result exn Payment
}.

(** ** The part of elliptic the helpers call *)

Class EllipticLib : Type := {
  (** [new EC('secp256k1').keyFromPublic(key).getPublic(compact, 'array')]:
      the point a public key encodes, encoded again in compressed
      ([compact = true]) or uncompressed form. *)
  getPublic : bytes -> bool -> result exn bytes
}.

(** ** Address.ts *)

Module Address.

Section WithLib.
Context {lib : BitcoinLib} {ec : EllipticLib}.

(** [Address.isP2PKH], lines 15-23. *)
Definition isP2PKH (address : string) : bool :=
  if char_is address 0 "1" || char_is address 0 "m" || char_is address 0 "n"
  then true
  else false.

(** [Address.isP2SH], lines 30-38. *)
Definition isP2SH (address : string) : bool :=
  if char_is address 0 "3" || char_is address 0 "2"
  then true
  else false.

(** [Address.isP2TR], lines 69-76. *)
Definition isP2TR (address : string) : bool :=
  if (slice0 4 address =? "bc1p")%string || (slice0 4 address =? "tb1p")%string
  then true
  else false.

(** [Address.isP2WPKHWitness], lines 83-92.  [witness[1]] is only read when
    the stack has two items. *)
Definition isP2WPKHWitness (witness : list bytes) : bool :=
  if (List.length witness =? 2)
     && match nth_error witness 1 with
        | Some w1 => (List.length w1 =? 33) && (byte_is w1 0 x02 || byte_is w1 0 x03)
        | None => false
        end
  then true
  else false.

(** [Address.isSingleKeyP2TRWitness], lines 99-108. *)
Definition isSingleKeyP2TRWitness (witness : list bytes) : bool :=
  if List.length witness =? 1 then true else false.

(** [Address.convertAdressToScriptPubkey], lines 117-159.  A branch whose
    inner length test fails falls through to the final [throw]. *)
Definition convertAdressToScriptPubkey (address : string) : result exn bytes :=
  if char_is address 0 "1" || char_is address 0 "m" || char_is address 0 "n" then
    p <- payments p2pkh (WithAddress address)
           (if char_is address 0 "1" then bitcoin else testnet) ;;
    Ok (pay_output p)
  else if char_is address 0 "3" || char_is address 0 "2" then
    p <- payments p2sh (WithAddress address)
           (if char_is address 0 "3" then bitcoin else testnet) ;;
    Ok (pay_output p)
  else if (slice0 4 address =? "bc1q")%string || (slice0 4 address =? "tb1q")%string then
    if String.length address =? 42 then
      p <- payments p2wpkh (WithAddress address)
             (if (slice0 4 address =? "bc1q")%string then bitcoin else testnet) ;;
      Ok (pay_output p)
    else if String.length address =? 62 then
      p <- payments p2wsh (WithAddress address)
             (if (slice0 4 address =? "bc1q")%string then bitcoin else testnet) ;;
      Ok (pay_output p)
    else Throw (Error "Unknown address type")
  else if (slice0 4 address =? "bc1p")%string || (slice0 4 address =? "tb1p")%string then
    if String.length address =? 62 then
      p <- payments p2tr (WithAddress address)
             (if (slice0 4 address =? "bc1p")%string then bitcoin else testnet) ;;
      Ok (pay_output p)
    else Throw (Error "Unknown address type")
  else Throw (Error "Unknown address type").

(** [Address.isP2WPKH], lines 45-62. *)
Definition isP2WPKH (address : string) : result exn bool :=
  if (slice0 4 address =? "bc1q")%string || (slice0 4 address =? "tb1q")%string then
    scriptPubKey <- convertAdressToScriptPubkey address ;;
    if List.length scriptPubKey =? 22 then Ok true else Ok false
  else Ok false.

(** The argument [addressType] of [convertPubKeyIntoAddress]; its TypeScript
    type is the union of these four literals, so the [default] branch of the
    [switch] is not reachable from typed code. *)
Inductive addressType : Type :=
| type_p2pkh | type_p2sh_p2wpkh | type_p2wpkh | type_p2tr.

(** The object [{ mainnet, testnet }] it returns. *)
Record AddressPair : Type := mkAddressPair {
  mainnet : string;
  testnet_ : string
}.

(** [publicKey.subarray(1, 33)]. *)
Definition subarray (from to : nat) (b : bytes) : bytes :=
  firstn (to - from) (skipn from b).

(** [Address.convertPubKeyIntoAddress], lines 167-201.  The mainnet
    address is computed before the testnet one. *)
Definition convertPubKeyIntoAddress (publicKey : bytes) (t : addressType)
  : result exn AddressPair :=
  match t with
  | type_p2pkh =>
      m <- payments p2pkh (WithPubkey publicKey) bitcoin ;;
      n <- payments p2pkh (WithPubkey publicKey) testnet ;;
      Ok (mkAddressPair (pay_address m) (pay_address n))
  | type_p2sh_p2wpkh =>
      rm <- payments p2wpkh (WithPubkey publicKey) bitcoin ;;
      m <- payments p2sh (WithRedeem rm) bitcoin ;;
      rn <- payments p2wpkh (WithPubkey publicKey) testnet ;;
      n <- payments p2sh (WithRedeem rn) testnet ;;
      Ok (mkAddressPair (pay_address m) (pay_address n))
  | type_p2wpkh =>
      m <- payments p2wpkh (WithPubkey publicKey) bitcoin ;;
      n <- payments p2wpkh (WithPubkey publicKey) testnet ;;
      Ok (mkAddressPair (pay_address m) (pay_address n))
  | type_p2tr =>
      let internalPubkey :=
        if List.length publicKey =? 33 then subarray 1 33 publicKey else publicKey in
      m <- payments p2tr (WithInternalPubkey internalPubkey) bitcoin ;;
      n <- payments p2tr (WithInternalPubkey internalPubkey) testnet ;;
      Ok (mkAddressPair (pay_address m) (pay_address n))
  end.

(** A call of the library together with the record of which network it was
    asked about: [isValidBitcoinAddress] is a sequence of such calls. *)
Definition Traced (A : Type) : Type := (A * list network)%type.

Definition tret {A} (a : A) : Traced A := (a, []).

Definition tbind {A B} (m : Traced A) (k : A -> Traced B) : Traced B :=
  let (a, l1) := m in
  let (b, l2) := k a in
  (b, l1 ++ l2).

Definition decodeFor (address : string) (n : network) : Traced (result exn bytes) :=
  (toOutputScript address n, [n]).

(** [try { toOutputScript(address, n); return true } catch (error) { }]
    followed by [rest]: a successful decode returns, a thrown error is
    swallowed and control continues. *)
Definition tryDecode (address : string) (n : network)
    (rest : Traced (result exn bool)) : Traced (result exn bool) :=
  tbind (decodeFor address n) (fun r =>
    match r with
    | Ok _ => tret (Ok true)
    | Throw _ => rest
    end).

(** [Address.isValidBitcoinAddress], lines 225-245, with the networks it
    tried, in order. *)
Definition isValidBitcoinAddress_traced (address : string) : Traced (result exn bool) :=
  tryDecode address bitcoin
    (tryDecode address testnet
       (tryDecode address regtest
          (tret (Ok false)))).

Definition isValidBitcoinAddress (address : string) : result exn bool :=
  fst (isValidBitcoinAddress_traced address).

Definition decodeAttempts (address : string) : list network :=
  snd (isValidBitcoinAddress_traced address).

(** [Address.compressPublicKey], lines 266-280: whatever the library
    throws is replaced by one fixed error. *)
Definition compressPublicKey (uncompressedPublicKey : bytes) : result exn bytes :=
  match getPublic uncompressedPublicKey true with
  | Ok compressedPublicKey => Ok compressedPublicKey
  | Throw _ =>
      Throw (Error "Fails to compress the provided public key. Please check if the provided key is a valid uncompressed public key.")
  end.

(** [Address.uncompressPublicKey], lines 302-316. *)
Definition uncompressPublicKey (compressedPublicKey : bytes) : result exn bytes :=
  match getPublic compressedPublicKey false with
  | Ok uncompressedPublicKey => Ok uncompressedPublicKey
  | Throw _ =>
      Throw (Error "Fails to uncompress the provided public key. Please check if the provided key is a valid compressed public key.")
  end.

End WithLib.

End Address.

(** * The wire formats

    The codecs below are not among the sources under [src/]: only their
    callers (the verifier's tests) are.  They are written from the
    specification, section 4.2 and section 6. *)

(** The low eight bits of a number, as a byte. *)
Definition byte_of_N (n : N) : byte :=
  match Byte.of_N (n mod 256)%N with
  | Some b => b
  | None => x00
  end.

(** Modelled from the spec: the base64 text encoding of a buffer (section 6,
    "base64 text"); the helper of the runtime that [Witness.serialize] and
    [Witness.deserialize] apply is missing from [src/].  The alphabet is
    the standard one, three bytes per four characters, padded with ['=']. *)
Module Base64.
Local Open Scope N_scope.

Definition alphabet : string :=
  "ABCDEFGHIJKLMNOPQRSTUVWXYZabcdefghijklmnopqrstuvwxyz0123456789+/".

(** The character of a six-bit value. *)
Definition digit (n : N) : ascii :=
  match String.get (N.to_nat n) alphabet with
  | Some c => c
  | None => "="%char
  end.

(** The six-bit value of a character of the alphabet. *)
Definition value (c : ascii) : option N :=
  let n := N_of_ascii c in
  if (65 <=? n) && (n <=? 90) then Some (n - 65)
  else if (97 <=? n) && (n <=? 122) then Some (n - 71)
  else if (48 <=? n) && (n <=? 57) then Some (n + 4)
  else if n =? 43 then Some 62
  else if n =? 47 then Some 63
  else None.

Fixpoint encode_chars (b : bytes) : list ascii :=
  match b with
  | [] => []
  | [x] =>
      let a := Byte.to_N x in
      [digit (a / 4); digit ((a mod 4) * 16); "="; "="]%char
  | [x; y] =>
      let a := Byte.to_N x in
      let b := Byte.to_N y in
      [digit (a / 4); digit ((a mod 4) * 16 + b / 16);
       digit ((b mod 16) * 4); "="]%char
  | x :: y :: z :: rest =>
      let a := Byte.to_N x in
      let b := Byte.to_N y in
      let c := Byte.to_N z in
      digit (a / 4) :: digit ((a mod 4) * 16 + b / 16)
        :: digit ((b mod 16) * 4 + c / 64) :: digit (c mod 64)
        :: encode_chars rest
  end.

Definition encode (b : bytes) : string :=
  string_of_list_ascii (encode_chars b).

Definition is_pad (c : ascii) : bool := Ascii.eqb c "=".

(** Decoding is strict: the text is a whole number of four-character
    groups and padding ends the last group only. *)
Fixpoint decode_chars (s : list ascii) : option bytes :=
  match s with
  | [] => Some []
  | c0 :: c1 :: c2 :: c3 :: rest =>
      if is_pad c3 then
        match rest with
        | [] =>
            if is_pad c2 then
              match value c0, value c1 with
              | Some v0, Some v1 => Some [byte_of_N (v0 * 4 + v1 / 16)]
              | _, _ => None
              end
            else
              match value c0, value c1, value c2 with
              | Some v0, Some v1, Some v2 =>
                  Some [byte_of_N (v0 * 4 + v1 / 16);
                        byte_of_N ((v1 mod 16) * 16 + v2 / 4)]
              | _, _, _ => None
              end
        | _ :: _ => None
        end
      else
        match value c0, value c1, value c2, value c3 with
        | Some v0, Some v1, Some v2, Some v3 =>
            match decode_chars rest with
            | Some tl =>
                Some (byte_of_N (v0 * 4 + v1 / 16)
                        :: byte_of_N ((v1 mod 16) * 16 + v2 / 4)
                        :: byte_of_N ((v2 mod 4) * 64 + v3) :: tl)
            | None => None
            end
        | _, _, _, _ => None
        end
  | _ => None
  end.

Definition decode (s : string) : option bytes :=
  decode_chars (list_ascii_of_string s).

(** The check that [value] reads [digit n] back as [n] and that [digit n]
    is not the padding character. *)
Definition digit_ok (n : N) : bool :=
  match value (digit n) with
  | Some v => (v =? n) && negb (is_pad (digit n))
  | None => false
  end.

End Base64.

(** Modelled from the spec: [CompactSize], the variable-length integer of
    the Bitcoin wire format that section 4.2 prefixes the stack and each of
    its items with ([VarInt] of the repository, missing from [src/]).  A
    value below 0xfd is one byte; otherwise a marker 0xfd, 0xfe or 0xff is
    followed by the value in 2, 4 or 8 little-endian bytes.  Decoding
    refuses a value that a shorter form could hold (a non-canonical
    CompactSize). *)
Module CompactSize.
Local Open Scope N_scope.

Fixpoint le_bytes (k : nat) (n : N) : bytes :=
  match k with
  | O => []
  | S k' => byte_of_N n :: le_bytes k' (n / 256)
  end.

Fixpoint le_value (b : bytes) : N :=
  match b with
  | [] => 0
  | x :: rest => Byte.to_N x + 256 * le_value rest
  end.

Definition encode (n : N) : bytes :=
  if n <? 253 then [byte_of_N n]
  else if n <=? 65535 then xfd :: le_bytes 2 n
  else if n <=? 4294967295 then xfe :: le_bytes 4 n
  else xff :: le_bytes 8 n.

(** [k] little-endian bytes whose value must be at least [least]. *)
Definition take (k : nat) (least : N) (rest : bytes) : option (N * bytes) :=
  if (List.length rest <? k)%nat then None
  else
    let v := le_value (firstn k rest) in
    if v <? least then None else Some (v, skipn k rest).

Definition decode (b : bytes) : option (N * bytes) :=
  match b with
  | [] => None
  | x :: rest =>
      let t := Byte.to_N x in
      if t <? 253 then Some (t, rest)
      else if t =? 253 then take 2 253 rest
      else if t =? 254 then take 4 65536 rest
      else take 8 4294967296 rest
  end.

End CompactSize.

(** The kinds of failure of section 7 of the specification, with the two
    further kinds sections 4.3 and 4.5 name, and an exception of a library
    that nothing catches. *)
Inductive failure : Type :=
| InvalidAddress
| UnsupportedAddress
| MalformedWitness
| InvalidSighash
| InvalidSchnorrSignature
| InvalidSignature
| RecoveryFailed
| InvalidPublicKey
| Uncaught (e : exn).

(** Modelled from the spec: the witness codec of section 4.2
    ([src/helpers/Witness.ts] is missing from [src/]).  [serialize] emits
    [CompactSize(count)], then [CompactSize(len(item))] and the item for
    each item, and base64-encodes the whole; [deserialize] undoes it and
    fails with [MalformedWitness] on text that is not base64, on a
    non-canonical CompactSize, on a buffer shorter than a declared length
    and on trailing bytes. *)
Module Witness.
Local Open Scope N_scope.

(** A length that CompactSize can hold.  The length of a JavaScript array
    or buffer always is one. *)
Definition representable (len : nat) : Prop := N.of_nat len < 2 ^ 64.

Definition serialize_item (item : bytes) : bytes :=
  CompactSize.encode (N.of_nat (List.length item)) ++ item.

Definition serialize_stack (items : list bytes) : bytes :=
  CompactSize.encode (N.of_nat (List.length items))
    ++ List.concat (map serialize_item items).

Definition serialize (items : list bytes) : string :=
  Base64.encode (serialize_stack items).

(** [count] length-prefixed items read off the front of [buf], and the
    bytes left over. *)
Fixpoint read_items (count : nat) (buf : bytes) : option (list bytes * bytes) :=
  match count with
  | O => Some ([], buf)
  | S count' =>
      match CompactSize.decode buf with
      | None => None
      | Some (len, rest) =>
          if N.of_nat (List.length rest) <? len then None
          else
            let n := N.to_nat len in
            match read_items count' (skipn n rest) with
            | None => None
            | Some (items, remaining) => Some (firstn n rest :: items, remaining)
            end
      end
  end.

(** Every item takes at least its length byte, so a count above the number
    of bytes left declares more than the buffer holds. *)
Definition deserialize_stack (buf : bytes) : result failure (list bytes) :=
  match CompactSize.decode buf with
  | None => Throw MalformedWitness
  | Some (count, rest) =>
      if N.of_nat (List.length rest) <? count then Throw MalformedWitness
      else
        match read_items (N.to_nat count) rest with
        | Some (items, []) => Ok items
        | _ => Throw MalformedWitness
        end
  end.

Definition deserialize (s : string) : result failure (list bytes) :=
  match Base64.decode s with
  | None => Throw MalformedWitness
  | Some buf => deserialize_stack buf
  end.

End Witness.

(** * The test helper of the verifier's tests *)

Module VerifierTest.

(** [modifiedBuffer[0] = i]: the value is stored modulo 256, and a store
    into an empty buffer is ignored. *)
Definition setFirstByte (buffer : bytes) (i : Z) : bytes :=
  match buffer with
  | [] => []
  | _ :: tail => byte_of_N (Z.to_N (i mod 256)) :: tail
  end.

(** The loop [for (let i = start; i <= end; i++)] of
    [generateCompatibleSignatures], lines 35-46, with [n] iterations to go.
    [initialRecId] is [buffer[0]], [undefined] for an empty buffer, and
    then [Math.abs(i - undefined) % 4 == 0] is [false]. *)
Fixpoint compatibleFrom (buffer : bytes) (initialRecId : option Z)
    (i : Z) (n : nat) : list string :=
  match n with
  | O => []
  | S n' =>
      let later := compatibleFrom buffer initialRecId (i + 1) n' in
      match initialRecId with
      | Some h0 =>
          if (Z.rem (Z.abs (i - h0)) 4 =? 0)%Z
          then Base64.encode (setFirstByte buffer i) :: later
          else later
      | None => later
      end
  end.

(** [generateCompatibleSignatures], lines 27-48, for integer [start] and
    [end].  [Buffer.from(text, 'base64')] and [toString('base64')] are the
    codec [Base64]; the result is [None] on text that is not canonical
    base64, where the runtime decodes leniently and the model says
    nothing. *)
Definition generateCompatibleSignatures (base64Signature : string)
    (start end_ : Z) : option (list string) :=
  match Base64.decode base64Signature with
  | Some buffer =>
      let initialRecId := option_map (fun b => Z.of_N (Byte.to_N b)) (hd_error buffer) in
      Some (compatibleFrom buffer initialRecId start (Z.to_nat (end_ - start + 1)))
  | None => None
  end.

End VerifierTest.

(** * The verifier

    [src/Verifier.ts] is not among the sources; [Verifier.verifySignature]
    is known from its tests and from the specification. *)

(** The hashing and curve operations the specification delegates to a
    cryptographic provider (section 1 and section 9). *)
Class CryptoLib : Type := {
  sha256 : bytes -> bytes;
  (** ECDSA public-key recovery from [(h, r, s, recId)]; [None] when the
      recovery is inconsistent. *)
  ecdsaRecover : bytes -> bytes -> bytes -> N -> option bytes
}.

Module Verifier.
Import Address.

Section WithLibs.
Context {lib : BitcoinLib} {ec : EllipticLib} {crypto : CryptoLib}.

(** The BIP-322 verifier of section 4.6.  It rests on the transaction
    builder and on the sighash algorithms, none of which is under [src/];
    it is a parameter here, and nothing below depends on what it does. *)
Variable verifyBIP322 : string -> string -> string -> result failure bool.

Definition raise_as {A} (kind : exn -> failure) (m : result exn A) : result failure A :=
  match m with
  | Ok a => Ok a
  | Throw e => Throw (kind e)
  end.

(** ["\x18Bitcoin Signed Message:\n"] *)
Definition messagePrefix : bytes :=
  x18 :: list_byte_of_string "Bitcoin Signed Message:" ++ [x0a].

(** Modelled from the spec: step 3 of section 4.5,
    [SHA256(SHA256(prefix ++ CompactSize(len(message)) ++ message))]. *)
Definition messageHash (message : bytes) : bytes :=
  sha256 (sha256 (messagePrefix
                    ++ CompactSize.encode (N.of_nat (List.length message))
                    ++ message)).

(** Modelled from the spec: step 1 of section 4.5, the header range 27-42. *)
Definition headerInRange (header : byte) : bool :=
  ((27 <=? Byte.to_N header) && (Byte.to_N header <=? 42))%N.

(** Modelled from the spec: step 2 of section 4.5,
    [recId = (header - 27) mod 4]. *)
Definition recId (header : byte) : N := ((Byte.to_N header - 27) mod 4)%N.

(** Modelled from the spec: step 5 of section 4.5.  Every address the
    recovered key can produce: P2PKH from the uncompressed and from the
    compressed form of the key, P2SH-P2WPKH, P2WPKH and P2TR from the
    compressed form, each for mainnet and testnet.  The addresses come
    from [Address.convertPubKeyIntoAddress]; a key that cannot be
    (de)compressed is an [InvalidPublicKey] (section 4.3). *)
Definition derivedAddresses (key : bytes) : result failure (list string) :=
  uncompressed <- raise_as (fun _ => InvalidPublicKey) (uncompressPublicKey key) ;;
  compressed <- raise_as (fun _ => InvalidPublicKey) (compressPublicKey key) ;;
  a1 <- raise_as Uncaught (convertPubKeyIntoAddress uncompressed type_p2pkh) ;;
  a2 <- raise_as Uncaught (convertPubKeyIntoAddress compressed type_p2pkh) ;;
  a3 <- raise_as Uncaught (convertPubKeyIntoAddress compressed type_p2sh_p2wpkh) ;;
  a4 <- raise_as Uncaught (convertPubKeyIntoAddress compressed type_p2wpkh) ;;
  a5 <- raise_as Uncaught (convertPubKeyIntoAddress compressed type_p2tr) ;;
  Ok [mainnet a1; testnet_ a1; mainnet a2; testnet_ a2; mainnet a3; testnet_ a3;
      mainnet a4; testnet_ a4; mainnet a5; testnet_ a5].

(** Modelled from the spec: the legacy (BIP-137) verifier, section 4.5,
    steps 1 to 6, on the decoded signature [header ++ r ++ s]. *)
Definition verifyLegacy (address : string) (message : bytes) (signature : bytes)
  : result failure bool :=
  if negb (List.length signature =? 65) then Throw InvalidSignature
  else
    match signature with
    | [] => Throw InvalidSignature
    | header :: rs =>
        if negb (headerInRange header) then Throw InvalidSignature
        else
          match ecdsaRecover (messageHash message) (firstn 32 rs) (skipn 32 rs)
                  (recId header) with
          | None => Throw RecoveryFailed
          | Some key =>
              derived <- derivedAddresses key ;;
              Ok (existsb (String.eqb address) derived)
          end
    end.

(** Modelled from the spec: [Verifier.verifySignature] (section 6).  A
    malformed address is rejected first, by [Address.isValidBitcoinAddress]
    (section 4.3, and the test "Reject verification from malformed
    address", which expects the rejection with legacy and with BIP-322
    signatures alike).  A signature in the legacy wire form of section 3,
    65 raw bytes base64-wrapped, goes to the legacy verifier whatever the
    address type (the test "Can verify legacy BIP-137 signature from
    P2SH-P2WPKH, P2WPKH, and P2TR address"); every other signature goes to
    the BIP-322 verifier.  The message is its UTF-8 bytes. *)
Definition verifySignature (address message signature : string)
  : result failure bool :=
  valid <- raise_as Uncaught (isValidBitcoinAddress address) ;;
  if negb valid then Throw InvalidAddress
  else
    match Base64.decode signature with
    | Some buffer =>
        if List.length buffer =? 65
        then verifyLegacy address (list_byte_of_string message) buffer
        else verifyBIP322 address message signature
    | None => verifyBIP322 address message signature
    end.

End WithLibs.

End Verifier.

(** * The libraries on the test vectors

    A finite fragment of the three libraries: what they answer on the
    addresses, keys and signature of the test "Can verify legacy BIP-137
    signature from P2SH-P2WPKH, P2WPKH, and P2TR address" (lines 81-155 of
    the verifier's tests) and on the BIP-322 test addresses.  Everything
    outside the tables throws.  The theorems below hold for all libraries;
    this instance is the concrete one on which they are exercised. *)

Module TestVectors.
Local Open Scope string_scope.

Definition hexValue (c : ascii) : N :=
  let n := N_of_ascii c in
  (if (97 <=? n) then n - 87 else if (65 <=? n) then n - 55 else n - 48)%N.

Fixpoint hexChars (s : list ascii) : bytes :=
  match s with
  | hi :: lo :: rest => byte_of_N (16 * hexValue hi + hexValue lo) :: hexChars rest
  | _ => []
  end.

(** The buffer a hexadecimal string denotes. *)
Definition hex (s : string) : bytes := hexChars (list_ascii_of_string s).

Fixpoint bytes_eqb (a b : bytes) : bool :=
  match a, b with
  | [], [] => true
  | x :: a', y :: b' => Byte.eqb x y && bytes_eqb a' b'
  | _, _ => false
  end.

Definition network_eqb (a b : network) : bool :=
  match a, b with
  | bitcoin, bitcoin | testnet, testnet | regtest, regtest => true
  | _, _ => false
  end.

Definition kind_eqb (a b : paymentKind) : bool :=
  match a, b with
  | p2pkh, p2pkh | p2sh, p2sh | p2wpkh, p2wpkh | p2wsh, p2wsh | p2tr, p2tr => true
  | _, _ => false
  end.

(** The public key that signed [signatureBase], and its uncompressed form
    (lines 84 and 88). *)
Definition publicKey : bytes :=
  hex "02f7fb07050d858b3289c2a0305fbac1f5b18233798665c0cbfe133e018b57cafc".

Definition publicKeyUncompressed : bytes :=
  hex "04f7fb07050d858b3289c2a0305fbac1f5b18233798665c0cbfe133e018b57cafc96668ad9ba5d1b2e9db47ecd5e2b484f9b955740dcabbe61d886d0ee6f5dc1b8".

Definition message : string := "Hello World".

Definition signatureBase : string :=
  "IAtVrymJqo43BCt9f7Dhl6ET4Gg3SmhyvdlW6wn9iWc9PweD7tNM5+qw7xE9/bzlw/Et789AQ2F59YKEnSzQudo=".

(** [r ++ s] of [signatureBase]. *)
Definition signatureBody : bytes :=
  hex "0b55af2989aa8e37042b7d7fb0e197a113e068374a6872bdd956eb09fd89673d3f0783eed34ce7eab0ef113dfdbce5c3f12defcf40436179f582849d2cd0b9da".

(** Addresses of the tests with their kind, network and output script. *)
Definition addresses : list (paymentKind * string * network * bytes) :=
  [ (p2pkh, "1Nji71ru2dMty4CPGNoXsqoU4byok8toqm", bitcoin,
     hex "76a914ee6e6c6a68969913c68befe7036e2ecd1e4df43e88ac");
    (p2pkh, "n3FfQ4wsqeo9kAfzywmuhm1nvbaWc4TpvC", testnet,
     hex "76a914ee6e6c6a68969913c68befe7036e2ecd1e4df43e88ac");
    (p2pkh, "1QDZfWJTVXqHFmJFRkyrnidvHyPyG5bynY", bitcoin,
     hex "76a914feab26a8397421ce66fcd23d6beb8da57bb0526788ac");
    (p2pkh, "n4jWxZPSJZGY2sms9KxEcdrF9xzgEbrHHj", testnet,
     hex "76a914feab26a8397421ce66fcd23d6beb8da57bb0526788ac");
    (p2sh, "36mTiayp1ZCcMr8t8KDdnVGSiz7Pd1cNie", bitcoin,
     hex "a91437afd30ab5d59f36ca810934f8ddbea046a79e1387");
    (p2sh, "2MxKfnKuqd1hxZdmRoSqWQSFhwLKZRQ3NpZ", testnet,
     hex "a91437afd30ab5d59f36ca810934f8ddbea046a79e1387");
    (p2wpkh, "bc1ql64jd2pewssuuehu6g7kh6ud54amq5n8t95eeq", bitcoin,
     hex "0014feab26a8397421ce66fcd23d6beb8da57bb05267");
    (p2wpkh, "tb1ql64jd2pewssuuehu6g7kh6ud54amq5n8pr02zn", testnet,
     hex "0014feab26a8397421ce66fcd23d6beb8da57bb05267");
    (p2tr, "bc1p5tm5kzqpflhxkkzhl7x4f0nnfygp38hxz4erdq4ffhpqgmgket9s34fgdd", bitcoin,
     hex "5120a2f74b08014fee6b5857ff8d54be734910189ee615723682a94dc2046d16cacb");
    (p2tr, "tb1p5tm5kzqpflhxkkzhl7x4f0nnfygp38hxz4erdq4ffhpqgmgket9sxal8hz", testnet,
     hex "5120a2f74b08014fee6b5857ff8d54be734910189ee615723682a94dc2046d16cacb");
    (p2pkh, "1F3sAm6ZtwLAUnj7d38pGFxtP3RVEvtsbV", bitcoin,
     hex "76a9149a1c78a507689f6f54b847ad1cef1e614ee23f1e88ac");
    (p2wpkh, "bc1q9vza2e8x573nczrlzms0wvx3gsqjx7vavgkx0l", bitcoin,
     hex "00142b05d564e6a7a33c087f16e0f730d1440123799d");
    (p2tr, "bc1ppv609nr0vr25u07u95waq5lucwfm6tde4nydujnu8npg4q75mr5sxq8lt3", bitcoin,
     hex "51200b34f2cc6f60d54e3fdc2d1dd053fcc393bd2db9acc8de4a7c3cc28a83d4d8e9");
    (p2wsh, "bc1qrp33g0q5c5txsp9arysrx4k6zdkfs4nce4xj0gdcccefvpysxf3qccfmv3", bitcoin,
     hex "00201863143c14c5166804bd19203356da136c985678cd4d27a1b8c6329604903262") ].

(** What each payment constructor derives from the key. *)
Definition derivations : list (paymentKind * bytes * network * string) :=
  [ (p2pkh, publicKeyUncompressed, bitcoin, "1Nji71ru2dMty4CPGNoXsqoU4byok8toqm");
    (p2pkh, publicKeyUncompressed, testnet, "n3FfQ4wsqeo9kAfzywmuhm1nvbaWc4TpvC");
    (p2pkh, publicKey, bitcoin, "1QDZfWJTVXqHFmJFRkyrnidvHyPyG5bynY");
    (p2pkh, publicKey, testnet, "n4jWxZPSJZGY2sms9KxEcdrF9xzgEbrHHj");
    (p2wpkh, publicKey, bitcoin, "bc1ql64jd2pewssuuehu6g7kh6ud54amq5n8t95eeq");
    (p2wpkh, publicKey, testnet, "tb1ql64jd2pewssuuehu6g7kh6ud54amq5n8pr02zn");
    (p2sh, hex "0014feab26a8397421ce66fcd23d6beb8da57bb05267", bitcoin,
     "36mTiayp1ZCcMr8t8KDdnVGSiz7Pd1cNie");
    (p2sh, hex "0014feab26a8397421ce66fcd23d6beb8da57bb05267", testnet,
     "2MxKfnKuqd1hxZdmRoSqWQSFhwLKZRQ3NpZ");
    (p2tr, Address.subarray 1 33 publicKey, bitcoin,
     "bc1p5tm5kzqpflhxkkzhl7x4f0nnfygp38hxz4erdq4ffhpqgmgket9s34fgdd");
    (p2tr, Address.subarray 1 33 publicKey, testnet,
     "tb1p5tm5kzqpflhxkkzhl7x4f0nnfygp38hxz4erdq4ffhpqgmgket9sxal8hz") ].

Definition scriptOf (a : string) (n : network) : option (paymentKind * bytes) :=
  match find (fun e => let '(_, a', n', _) := e in (a' =? a) && network_eqb n' n) addresses with
  | Some (k, _, _, script) => Some (k, script)
  | None => None
  end.

Definition derive (k : paymentKind) (key : bytes) (n : network) : option string :=
  match find (fun e => let '(k', key', n', _) := e in
                kind_eqb k' k && bytes_eqb key' key && network_eqb n' n) derivations with
  | Some (_, _, _, a) => Some a
  | None => None
  end.

Definition paymentAt (k : paymentKind) (a : string) (n : network) : result exn Payment :=
  match scriptOf a n with
  | Some (k', script) =>
      if kind_eqb k' k then Ok (mkPayment a script)
      else Throw (Error "Invalid version or Network mismatch")
  | None => Throw (Error "Invalid address")
  end.

Definition paymentFrom (k : paymentKind) (key : bytes) (n : network) : result exn Payment :=
  match derive k key n with
  | Some a => paymentAt k a n
  | None => Throw (Error "Not enough data")
  end.

#[export] Instance bitcoinLib : BitcoinLib := {
  toOutputScript a n :=
    match scriptOf a n with
    | Some (_, script) => Ok script
    | None => Throw (Error (a ++ " has no matching Script"))
    end;
  payments k opts n :=
    match opts with
    | WithAddress a => paymentAt k a n
    | WithPubkey key => paymentFrom k key n
    | WithRedeem redeem => paymentFrom k (pay_output redeem) n
    | WithInternalPubkey key => paymentFrom k key n
    end
}.

#[export] Instance ellipticLib : EllipticLib := {
  getPublic key compact :=
    if bytes_eqb key publicKey || bytes_eqb key publicKeyUncompressed
    then Ok (if compact then publicKey else publicKeyUncompressed)
    else Throw (Error "Unknown point format")
}.

(** SHA-256 of the prefixed message, and SHA-256 of that. *)
Definition hashes : list (bytes * bytes) :=
  [ (hex "18426974636f696e205369676e6564204d6573736167653a0a0b48656c6c6f20576f726c64",
     hex "93b57da96f256f507a3e3aa2adefed75f786e7d9cd4c38aab7a3a9f5a95af7c9");
    (hex "93b57da96f256f507a3e3aa2adefed75f786e7d9cd4c38aab7a3a9f5a95af7c9",
     hex "a7af0baad5ae99b97fc69b3a0d1abcf3ef17f131cc4776e1bc11933ec8550f49") ].

#[export] Instance cryptoLib : CryptoLib := {
  sha256 b :=
    match find (fun e => bytes_eqb (fst e) b) hashes with
    | Some (_, h) => h
    | None => []
    end;
  ecdsaRecover h r s recId :=
    if bytes_eqb h (hex "a7af0baad5ae99b97fc69b3a0d1abcf3ef17f131cc4776e1bc11933ec8550f49")
       && bytes_eqb r (hex "0b55af2989aa8e37042b7d7fb0e197a113e068374a6872bdd956eb09fd89673d")
       && bytes_eqb s (hex "3f0783eed34ce7eab0ef113dfdbce5c3f12defcf40436179f582849d2cd0b9da")
       && (recId =? 1)%N
    then Some publicKey
    else None
}.

(** The BIP-322 verifier is not exercised by the legacy vectors. *)
Definition noBIP322 (address message signature : string) : result failure bool :=
  Throw MalformedWitness.

End TestVectors.

(** A library that knows one regtest address, the P2WPKH address of the
    BIP-322 vectors encoded for regtest, and nothing else. *)
Module RegtestVector.
Local Open Scope string_scope.

Definition address : string := "bcrt1q9vza2e8x573nczrlzms0wvx3gsqjx7vay85cr9".

Definition bitcoinLib : BitcoinLib := {|
  toOutputScript a n :=
    match n with
    | regtest =>
        if a =? address
        then Ok (TestVectors.hex "00142b05d564e6a7a33c087f16e0f730d1440123799d")
        else Throw (Error (a ++ " has no matching Script"))
    | _ => Throw (Error (a ++ " has no matching Script"))
    end;
  payments _ _ _ := Throw (Error "Invalid address")
|}.

End RegtestVector.

(** [lia] reads division and remainder by a constant. *)
Ltac Zify.zify_post_hook ::= Z.to_euclidean_division_equations.

(** * Properties of the address helpers *)

Module AddressFacts.
Import Address.

Lemma byte_is_hd (b : bytes) (c : byte) :
  byte_is b 0 c = true <-> hd_error b = Some c.
Proof.
  unfold byte_is. destruct b as [|x b]; simpl.
  - split; discriminate.
  - split; intro H.
    + apply Byte.byte_dec_bl in H. now subst.
    + injection H as ->. now apply Byte.byte_dec_lb.
Qed.

Lemma if_bool_id (b : bool) : (if b then true else false) = b.
Proof. now destruct b. Qed.

Lemma char_is_slice0 (a b : string) (c : ascii) :
  slice0 1 a = slice0 1 b -> char_is a 0 c = char_is b 0 c.
Proof.
  unfold slice0, char_is.
  destruct a as [|x a], b as [|y b]; simpl; try discriminate; trivial.
  intro H. now injection H as ->.
Qed.

(** C8.  [isP2WPKHWitness] holds exactly of the two-item stacks whose second
    item is 33 bytes long and starts with 0x02 or 0x03;
    [isSingleKeyP2TRWitness] holds exactly of the one-item stacks; and
    replacing the first item of a stack by any other buffer changes neither
    answer. *)
Theorem witness_shape_predicates :
  forall witness : list bytes,
    (isP2WPKHWitness witness = true <->
       exists sig pubkey,
         witness = [sig; pubkey] /\ List.length pubkey = 33 /\
         (hd_error pubkey = Some x02 \/ hd_error pubkey = Some x03))
    /\ (isSingleKeyP2TRWitness witness = true <-> exists sig, witness = [sig])
    /\ (forall first first' rest,
          witness = first :: rest ->
          isP2WPKHWitness (first' :: rest) = isP2WPKHWitness witness /\
          isSingleKeyP2TRWitness (first' :: rest) = isSingleKeyP2TRWitness witness).
Proof.
  intro witness. split; [|split].
  - unfold isP2WPKHWitness. rewrite if_bool_id. split.
    + intro H. apply andb_true_iff in H as [Hlen H].
      apply Nat.eqb_eq in Hlen.
      destruct witness as [|sig [|pubkey [|x l]]]; simpl in Hlen; try discriminate.
      simpl in H. apply andb_true_iff in H as [H33 Hhd].
      apply Nat.eqb_eq in H33. apply orb_true_iff in Hhd.
      exists sig, pubkey. repeat split; trivial.
      destruct Hhd as [Hhd|Hhd]; apply byte_is_hd in Hhd; auto.
    + intros (sig & pubkey & -> & H33 & Hhd). simpl.
      apply Nat.eqb_eq in H33. rewrite H33. simpl.
      apply orb_true_iff.
      destruct Hhd as [Hhd|Hhd]; apply byte_is_hd in Hhd; auto.
  - unfold isSingleKeyP2TRWitness. rewrite if_bool_id, Nat.eqb_eq.
    destruct witness as [|sig [|x l]]; simpl;
      (split; [intro H; try discriminate H | intros (s & H); try discriminate H]).
    + now exists sig.
    + reflexivity.
  - intros first first' rest ->. split; reflexivity.
Qed.

Section WithLib.
Context {lib : BitcoinLib}.

(** C9.  [isValidBitcoinAddress] asks the library to decode the address for
    mainnet, then testnet, then regtest, stops at the first network that
    decodes, answers [true] exactly when one of them does, and never
    throws. *)
Theorem isValidBitcoinAddress_tries_networks_in_order :
  forall address : string,
    isValidBitcoinAddress address =
      Ok (is_ok (toOutputScript address bitcoin)
          || is_ok (toOutputScript address testnet)
          || is_ok (toOutputScript address regtest))
    /\ decodeAttempts address =
         (if is_ok (toOutputScript address bitcoin) then [bitcoin]
          else if is_ok (toOutputScript address testnet) then [bitcoin; testnet]
          else [bitcoin; testnet; regtest]).
Proof.
  intro address.
  unfold isValidBitcoinAddress, decodeAttempts, isValidBitcoinAddress_traced,
    tryDecode, decodeFor, tbind, tret.
  destruct (toOutputScript address bitcoin) as [s1|e1]; simpl; [now split|].
  destruct (toOutputScript address testnet) as [s2|e2]; simpl; [now split|].
  destruct (toOutputScript address regtest) as [s3|e3]; simpl; now split.
Qed.

Lemma isP2WPKH_propagates (address : string) (e : exn) :
  (slice0 4 address = "bc1q" \/ slice0 4 address = "tb1q")%string ->
  convertAdressToScriptPubkey address = Throw e ->
  isP2WPKH address = Throw e.
Proof.
  intros Hp Hc. unfold isP2WPKH.
  assert (Hb : ((slice0 4 address =? "bc1q") || (slice0 4 address =? "tb1q"))%string = true).
  { apply orb_true_iff. destruct Hp as [Hp|Hp]; [left|right]; now apply String.eqb_eq. }
  rewrite Hb, Hc. reflexivity.
Qed.

Lemma segwit_v0_prefix_not_base58 (address : string) :
  (slice0 4 address = "bc1q" \/ slice0 4 address = "tb1q")%string ->
  char_is address 0 "1" || char_is address 0 "m" || char_is address 0 "n" = false
  /\ char_is address 0 "3" || char_is address 0 "2" = false
  /\ ((slice0 4 address =? "bc1q") || (slice0 4 address =? "tb1q"))%string = true.
Proof.
  intro Hp. unfold slice0, char_is in *.
  destruct address as [|c address]; simpl in *.
  - destruct Hp; discriminate.
  - destruct Hp as [Hp|Hp]; injection Hp as -> Hp; rewrite Hp; simpl; auto.
Qed.

Lemma convert_segwit_v0 (address : string) :
  (slice0 4 address = "bc1q" \/ slice0 4 address = "tb1q")%string ->
  convertAdressToScriptPubkey address =
    if String.length address =? 42 then
      p <- payments p2wpkh (WithAddress address)
             (if (slice0 4 address =? "bc1q")%string then bitcoin else testnet) ;;
      Ok (pay_output p)
    else if String.length address =? 62 then
      p <- payments p2wsh (WithAddress address)
             (if (slice0 4 address =? "bc1q")%string then bitcoin else testnet) ;;
      Ok (pay_output p)
    else Throw (Error "Unknown address type").
Proof.
  intro Hp. destruct (segwit_v0_prefix_not_base58 address Hp) as (H1 & H2 & H3).
  unfold convertAdressToScriptPubkey. now rewrite H1, H2, H3.
Qed.

(** C10.  On an address with the prefix [bc1q] or [tb1q], every failure of
    [convertAdressToScriptPubkey] escapes from [isP2WPKH]: the fall-through
    [throw] when the length is neither 42 nor 62, and whatever the library
    throws while decoding a 42- or 62-character string.  [isP2PKH],
    [isP2SH] and [isP2TR] are boolean functions of the first one or four
    characters, while [isP2WPKH] throws on the address ["bc1q"] whatever the
    library does. *)
Theorem isP2WPKH_throws_on_undecodable :
  forall address : string,
    (slice0 4 address = "bc1q" \/ slice0 4 address = "tb1q")%string ->
    (forall e, convertAdressToScriptPubkey address = Throw e ->
               isP2WPKH address = Throw e)
    /\ (String.length address <> 42 -> String.length address <> 62 ->
        isP2WPKH address = Throw (Error "Unknown address type"))
    /\ (forall e n, String.length address = 42 ->
          payments p2wpkh (WithAddress address) n = Throw e ->
          n = (if (slice0 4 address =? "bc1q")%string then bitcoin else testnet) ->
          isP2WPKH address = Throw e)
    /\ (forall e n, String.length address = 62 ->
          payments p2wsh (WithAddress address) n = Throw e ->
          n = (if (slice0 4 address =? "bc1q")%string then bitcoin else testnet) ->
          isP2WPKH address = Throw e)
    /\ (forall a b, slice0 1 a = slice0 1 b ->
          isP2PKH a = isP2PKH b /\ isP2SH a = isP2SH b)
    /\ (forall a b, slice0 4 a = slice0 4 b -> isP2TR a = isP2TR b)
    /\ isP2WPKH "bc1q" = Throw (Error "Unknown address type").
Proof.
  intros address Hp. repeat split.
  - intros e. now apply isP2WPKH_propagates.
  - intros H42 H62. apply isP2WPKH_propagates; trivial.
    rewrite convert_segwit_v0 by trivial.
    apply Nat.eqb_neq in H42, H62. now rewrite H42, H62.
  - intros e n H42 Hthrow ->. apply isP2WPKH_propagates; trivial.
    rewrite convert_segwit_v0 by trivial.
    rewrite H42. simpl. now rewrite Hthrow.
  - intros e n H62 Hthrow ->. apply isP2WPKH_propagates; trivial.
    rewrite convert_segwit_v0 by trivial.
    rewrite H62. simpl. now rewrite Hthrow.
  - unfold isP2PKH. now rewrite !(char_is_slice0 a b) by trivial.
  - unfold isP2SH. now rewrite !(char_is_slice0 a b) by trivial.
  - intros a b H. unfold isP2TR. now rewrite H.
Qed.

Lemma taproot_prefix_not_other (address : string) :
  isP2TR address = true ->
  char_is address 0 "1" || char_is address 0 "m" || char_is address 0 "n" = false
  /\ char_is address 0 "3" || char_is address 0 "2" = false
  /\ ((slice0 4 address =? "bc1q") || (slice0 4 address =? "tb1q"))%string = false
  /\ ((slice0 4 address =? "bc1p") || (slice0 4 address =? "tb1p"))%string = true.
Proof.
  unfold isP2TR. rewrite if_bool_id. intro Hp.
  assert (H : (slice0 4 address = "bc1p" \/ slice0 4 address = "tb1p")%string).
  { apply orb_true_iff in Hp. destruct Hp as [Hp|Hp]; [left|right]; now apply String.eqb_eq. }
  unfold slice0, char_is in *.
  destruct address as [|c address]; simpl in *.
  - destruct H; discriminate.
  - destruct H as [H|H]; injection H as -> H; rewrite H; simpl; auto.
Qed.

(** An address with the prefix [bc1p] or [tb1p] whose length is not 62 has
    no script: [convertAdressToScriptPubkey] throws without asking the
    library. *)
Theorem convertAdressToScriptPubkey_taproot_length :
  forall address : string,
    isP2TR address = true ->
    String.length address <> 62 ->
    convertAdressToScriptPubkey address = Throw (Error "Unknown address type").
Proof.
  intros address Hp Hl.
  destruct (taproot_prefix_not_other address Hp) as (H1 & H2 & H3 & H4).
  unfold convertAdressToScriptPubkey. rewrite H1, H2, H3, H4.
  apply Nat.eqb_neq in Hl. now rewrite Hl.
Qed.

(** Where [convertAdressToScriptPubkey] returns a script, [isP2WPKH]
    returns: [true] exactly for a [bc1q] or [tb1q] address whose script is
    22 bytes long. *)
Theorem isP2WPKH_decides_by_script_length :
  forall (address : string) (scriptPubKey : bytes),
    convertAdressToScriptPubkey address = Ok scriptPubKey ->
    isP2WPKH address =
      Ok (((slice0 4 address =? "bc1q") || (slice0 4 address =? "tb1q"))%string
          && (List.length scriptPubKey =? 22)).
Proof.
  intros address scriptPubKey H. unfold isP2WPKH. rewrite H.
  destruct ((slice0 4 address =? "bc1q") || (slice0 4 address =? "tb1q"))%string;
    [|reflexivity].
  cbn [bind andb]. now destruct (List.length scriptPubKey =? 22).
Qed.

(** For the address type [p2tr], a 33-byte public key stands for its last
    32 bytes, the x-only key. *)
Theorem convertPubKeyIntoAddress_p2tr_xonly :
  forall publicKey : bytes,
    List.length publicKey = 33 ->
    convertPubKeyIntoAddress publicKey type_p2tr =
    convertPubKeyIntoAddress (subarray 1 33 publicKey) type_p2tr.
Proof.
  intros publicKey H. unfold convertPubKeyIntoAddress.
  assert (H32 : List.length (subarray 1 33 publicKey) = 32).
  { unfold subarray. rewrite length_firstn, length_skipn, H. reflexivity. }
  now rewrite H, H32.
Qed.

(** A regtest bech32 address (prefix [bcrt]) has no script:
    [convertAdressToScriptPubkey] knows the mainnet and testnet prefixes
    only, although [isValidBitcoinAddress] also tries regtest. *)
Theorem convertAdressToScriptPubkey_regtest_bech32 :
  forall address : string,
    slice0 4 address = "bcrt"%string ->
    convertAdressToScriptPubkey address = Throw (Error "Unknown address type").
Proof.
  intros address H. unfold convertAdressToScriptPubkey, char_is, slice0 in *.
  destruct address as [|c address]; simpl in *; [discriminate|].
  injection H as -> H. rewrite H. reflexivity.
Qed.

(** The first character decides the base58 predicates and excludes the
    bech32 prefixes. *)
Lemma base58_prefix_not_bech32 (address : string) :
  isP2PKH address = true \/ isP2SH address = true ->
  ((slice0 4 address =? "bc1q") || (slice0 4 address =? "tb1q"))%string = false
  /\ ((slice0 4 address =? "bc1p") || (slice0 4 address =? "tb1p"))%string = false.
Proof.
  unfold isP2PKH, isP2SH. rewrite !if_bool_id. unfold char_is, slice0.
  destruct address as [|c address]; simpl; [intros [H|H]; discriminate|].
  intros [H|H];
    repeat (apply orb_true_iff in H; destruct H as [H|H]);
    apply Ascii.eqb_eq in H; subst c; now split.
Qed.

Lemma isP2PKH_not_isP2SH (address : string) :
  isP2PKH address = true -> isP2SH address = false.
Proof.
  unfold isP2PKH, isP2SH. rewrite !if_bool_id. unfold char_is.
  destruct (String.get 0 address) as [c|]; [|discriminate].
  intro H. repeat (apply orb_true_iff in H; destruct H as [H|H]);
    apply Ascii.eqb_eq in H; subst c; reflexivity.
Qed.

(** The four address predicates exclude one another: an address is of at
    most one of the kinds P2PKH, P2SH, P2WPKH and P2TR, and on an address
    of one of the other three kinds [isP2WPKH] returns [false] without
    asking the library. *)
Theorem address_predicates_disjoint :
  forall address : string,
    (isP2PKH address = true ->
       isP2SH address = false /\ isP2TR address = false /\ isP2WPKH address = Ok false)
    /\ (isP2SH address = true ->
       isP2PKH address = false /\ isP2TR address = false /\ isP2WPKH address = Ok false)
    /\ (isP2TR address = true ->
       isP2PKH address = false /\ isP2SH address = false /\ isP2WPKH address = Ok false)
    /\ (isP2WPKH address = Ok true ->
       isP2PKH address = false /\ isP2SH address = false /\ isP2TR address = false).
Proof.
  intro address. repeat split.
  - now apply isP2PKH_not_isP2SH.
  - unfold isP2TR. rewrite if_bool_id.
    now apply (base58_prefix_not_bech32 address (or_introl H)).
  - unfold isP2WPKH.
    now rewrite (proj1 (base58_prefix_not_bech32 address (or_introl H))).
  - destruct (isP2PKH address) eqn:E; [|reflexivity].
    apply isP2PKH_not_isP2SH in E. congruence.
  - unfold isP2TR. rewrite if_bool_id.
    now apply (base58_prefix_not_bech32 address (or_intror H)).
  - unfold isP2WPKH.
    now rewrite (proj1 (base58_prefix_not_bech32 address (or_intror H))).
  - unfold isP2PKH. rewrite if_bool_id. now apply taproot_prefix_not_other.
  - unfold isP2SH. rewrite if_bool_id. now apply taproot_prefix_not_other.
  - unfold isP2WPKH.
    now rewrite (proj1 (proj2 (proj2 (taproot_prefix_not_other address H)))).
  - destruct (isP2PKH address) eqn:E; [|reflexivity].
    unfold isP2WPKH in H.
    rewrite (proj1 (base58_prefix_not_bech32 address (or_introl E))) in H. discriminate.
  - destruct (isP2SH address) eqn:E; [|reflexivity].
    unfold isP2WPKH in H.
    rewrite (proj1 (base58_prefix_not_bech32 address (or_intror E))) in H. discriminate.
  - destruct (isP2TR address) eqn:E; [|reflexivity].
    unfold isP2WPKH in H.
    rewrite (proj1 (proj2 (proj2 (taproot_prefix_not_other address E)))) in H. discriminate.
Qed.

Ltac first_char c :=
  repeat match goal with
         | H : (_ || _) = true |- _ => apply orb_true_iff in H; destruct H as [H|H]
         | H : (c =? _)%char = true |- _ => apply Ascii.eqb_eq in H; subst c
         end.

(** A script [convertAdressToScriptPubkey] returns is the output of one
    payment of the library, built from the address: of the kind the prefix
    and the length select, for mainnet when the first character is [1],
    [3] or [b] and for testnet otherwise, never for regtest. *)
Theorem convertAdressToScriptPubkey_returns_prefix_payment :
  forall (address : string) (scriptPubKey : bytes),
    convertAdressToScriptPubkey address = Ok scriptPubKey ->
    exists kind p,
      payments kind (WithAddress address)
        (if char_is address 0 "1" || char_is address 0 "3" || char_is address 0 "b"
         then bitcoin else testnet) = Ok p
      /\ pay_output p = scriptPubKey
      /\ ((kind = p2pkh /\ isP2PKH address = true)
          \/ (kind = p2sh /\ isP2SH address = true)
          \/ (kind = p2wpkh /\ String.length address = 42
              /\ (slice0 4 address = "bc1q" \/ slice0 4 address = "tb1q")%string)
          \/ (kind = p2wsh /\ String.length address = 62
              /\ (slice0 4 address = "bc1q" \/ slice0 4 address = "tb1q")%string)
          \/ (kind = p2tr /\ String.length address = 62 /\ isP2TR address = true)).
Proof.
  intros address scriptPubKey H.
  unfold convertAdressToScriptPubkey in H.
  unfold isP2PKH, isP2SH, isP2TR. rewrite !if_bool_id.
  destruct (char_is address 0 "1" || char_is address 0 "m" || char_is address 0 "n") eqn:E1.
  { destruct (payments p2pkh _ _) as [p|e] eqn:P; [|discriminate].
    injection H as <-. exists p2pkh, p. split; [|split; [reflexivity|left; now split]].
    rewrite <- P. f_equal. unfold char_is in *.
    destruct address as [|c rest]; [discriminate|]. simpl in *.
    first_char c; reflexivity. }
  destruct (char_is address 0 "3" || char_is address 0 "2") eqn:E2.
  { destruct (payments p2sh _ _) as [p|e] eqn:P; [|discriminate].
    injection H as <-. exists p2sh, p.
    split; [|split; [reflexivity|right; left; now split]].
    rewrite <- P. f_equal. unfold char_is in *.
    destruct address as [|c rest]; [discriminate|]. simpl in *.
    first_char c; reflexivity. }
  destruct ((slice0 4 address =? "bc1q") || (slice0 4 address =? "tb1q"))%string eqn:E3.
  { assert (Hp : (slice0 4 address = "bc1q" \/ slice0 4 address = "tb1q")%string).
    { apply orb_true_iff in E3. destruct E3 as [E|E]; apply String.eqb_eq in E; auto. }
    assert (N : (if (slice0 4 address =? "bc1q")%string then bitcoin else testnet)
                = if char_is address 0 "1" || char_is address 0 "3" || char_is address 0 "b"
                  then bitcoin else testnet).
    { unfold char_is, slice0 in *. destruct address as [|c rest]; simpl in *.
      - destruct Hp; discriminate.
      - destruct Hp as [Hp|Hp]; injection Hp as -> Hp; rewrite Hp; reflexivity. }
    rewrite N in H.
    destruct (String.length address =? 42) eqn:L42.
    - destruct (payments p2wpkh _ _) as [p|e] eqn:P; [|discriminate].
      injection H as <-. exists p2wpkh, p. apply Nat.eqb_eq in L42.
      split; [exact P|split; [reflexivity|]]. right; right; left. now repeat split.
    - destruct (String.length address =? 62) eqn:L62; [|discriminate].
      destruct (payments p2wsh _ _) as [p|e] eqn:P; [|discriminate].
      injection H as <-. exists p2wsh, p. apply Nat.eqb_eq in L62.
      split; [exact P|split; [reflexivity|]]. right; right; right; left. now repeat split. }
  destruct ((slice0 4 address =? "bc1p") || (slice0 4 address =? "tb1p"))%string eqn:E4;
    [|discriminate].
  assert (Hp : (slice0 4 address = "bc1p" \/ slice0 4 address = "tb1p")%string).
  { apply orb_true_iff in E4. destruct E4 as [E|E]; apply String.eqb_eq in E; auto. }
  assert (N : (if (slice0 4 address =? "bc1p")%string then bitcoin else testnet)
              = if char_is address 0 "1" || char_is address 0 "3" || char_is address 0 "b"
                then bitcoin else testnet).
  { unfold char_is, slice0 in *. destruct address as [|c rest]; simpl in *.
    - destruct Hp; discriminate.
    - destruct Hp as [Hp|Hp]; injection Hp as -> Hp; rewrite Hp; reflexivity. }
  rewrite N in H.
  destruct (String.length address =? 62) eqn:L62; [|discriminate].
  destruct (payments p2tr _ _) as [p|e] eqn:P; [|discriminate].
  injection H as <-. exists p2tr, p. apply Nat.eqb_eq in L62.
  split; [exact P|split; [reflexivity|]]. right; right; right; right. now repeat split.
Qed.

(** [convertAdressToScriptPubkey] throws its own error, without asking the
    library, on every address that no branch accepts: not P2PKH, not P2SH,
    with the prefix [bc1q] or [tb1q] only at a length other than 42 and
    62, with the prefix [bc1p] or [tb1p] only at a length other than 62.
    The empty string is such an address. *)
Theorem convertAdressToScriptPubkey_unknown_type :
  forall address : string,
    isP2PKH address = false ->
    isP2SH address = false ->
    ((slice0 4 address = "bc1q" \/ slice0 4 address = "tb1q")%string ->
       String.length address <> 42 /\ String.length address <> 62) ->
    (isP2TR address = true -> String.length address <> 62) ->
    convertAdressToScriptPubkey address = Throw (Error "Unknown address type").
Proof.
  intros address H1 H2 H3 H4.
  unfold isP2PKH, isP2SH in H1, H2. rewrite if_bool_id in H1, H2.
  unfold isP2TR in H4. rewrite if_bool_id in H4.
  unfold convertAdressToScriptPubkey. rewrite H1, H2.
  destruct ((slice0 4 address =? "bc1q") || (slice0 4 address =? "tb1q"))%string eqn:E3.
  - destruct H3 as [L42 L62].
    + apply orb_true_iff in E3. destruct E3 as [E|E]; apply String.eqb_eq in E; auto.
    + apply Nat.eqb_neq in L42, L62. now rewrite L42, L62.
  - destruct ((slice0 4 address =? "bc1p") || (slice0 4 address =? "tb1p"))%string;
      [|reflexivity].
    specialize (H4 eq_refl). apply Nat.eqb_neq in H4. now rewrite H4.
Qed.

(** A regtest bech32 address that the library decodes for regtest is valid
    for [isValidBitcoinAddress] and still has no script for
    [convertAdressToScriptPubkey]. *)
Theorem regtest_bech32_valid_without_script :
  forall address : string,
    slice0 4 address = "bcrt"%string ->
    is_ok (toOutputScript address regtest) = true ->
    isValidBitcoinAddress address = Ok true
    /\ convertAdressToScriptPubkey address = Throw (Error "Unknown address type").
Proof.
  intros address Hp Hr. split.
  - unfold isValidBitcoinAddress, isValidBitcoinAddress_traced, tryDecode,
      decodeFor, tbind, tret.
    destruct (toOutputScript address bitcoin); [reflexivity|].
    destruct (toOutputScript address testnet); [reflexivity|].
    destruct (toOutputScript address regtest); [reflexivity|discriminate].
  - now apply convertAdressToScriptPubkey_regtest_bech32.
Qed.

(** No witness stack has both shapes, and the empty stack has neither. *)
Theorem witness_shapes_disjoint :
  forall witness : list bytes,
    isP2WPKHWitness witness && isSingleKeyP2TRWitness witness = false
    /\ isP2WPKHWitness [] = false
    /\ isSingleKeyP2TRWitness [] = false.
Proof.
  intro witness. repeat split.
  unfold isP2WPKHWitness, isSingleKeyP2TRWitness. rewrite !if_bool_id.
  destruct witness as [|a [|b [|c l]]]; simpl; try reflexivity.
  apply andb_false_r.
Qed.

Section WithElliptic.
Context {ec : EllipticLib}.

(** [compressPublicKey] and [uncompressPublicKey] return what the library
    returns, and replace every exception of the library by their own. *)
Theorem publicKey_conversions_wrap_the_library :
  forall key : bytes,
    compressPublicKey key =
      match getPublic key true with
      | Ok k => Ok k
      | Throw _ =>
          Throw (Error "Fails to compress the provided public key. Please check if the provided key is a valid uncompressed public key.")
      end
    /\ uncompressPublicKey key =
      match getPublic key false with
      | Ok k => Ok k
      | Throw _ =>
          Throw (Error "Fails to uncompress the provided public key. Please check if the provided key is a valid compressed public key.")
      end
    /\ (forall e, compressPublicKey key = Throw e -> is_ok (getPublic key true) = false)
    /\ (forall e, uncompressPublicKey key = Throw e -> is_ok (getPublic key false) = false).
Proof.
  intro key. unfold compressPublicKey, uncompressPublicKey.
  repeat split; trivial; intro e.
  - destruct (getPublic key true); [discriminate|reflexivity].
  - destruct (getPublic key false); [discriminate|reflexivity].
Qed.

End WithElliptic.

End WithLib.

End AddressFacts.

(** * The codecs invert each other *)

Module CodecFacts.
Local Open Scope N_scope.

Lemma to_N_lt_256 (x : byte) : Byte.to_N x < 256.
Proof. pose proof (Byte.to_N_bounded x). lia. Qed.

Lemma to_N_byte_of_N (n : N) : Byte.to_N (byte_of_N n) = n mod 256.
Proof.
  unfold byte_of_N.
  destruct (Byte.of_N (n mod 256)) as [b|] eqn:E.
  - now apply Byte.to_of_N.
  - apply Byte.of_N_None_iff in E. lia.
Qed.

Lemma byte_of_N_to_N (x : byte) : byte_of_N (Byte.to_N x) = x.
Proof.
  unfold byte_of_N.
  rewrite N.mod_small by apply to_N_lt_256.
  now rewrite Byte.of_to_N.
Qed.

Lemma byte_of_N_eq (n : N) (x : byte) : n = Byte.to_N x -> byte_of_N n = x.
Proof. intros ->. apply byte_of_N_to_N. Qed.

(** ** Base64 *)

Lemma digits_ok : forallb (fun k => Base64.digit_ok (N.of_nat k)) (seq 0 64) = true.
Proof. vm_compute. reflexivity. Qed.

Lemma digit_ok_lt (n : N) : n < 64 -> Base64.digit_ok n = true.
Proof.
  intro H. pose proof digits_ok as A.
  rewrite forallb_forall in A.
  specialize (A (N.to_nat n)). rewrite N2Nat.id in A.
  apply A. apply in_seq. lia.
Qed.

Lemma value_digit (n : N) : n < 64 -> Base64.value (Base64.digit n) = Some n.
Proof.
  intro H. apply digit_ok_lt in H. unfold Base64.digit_ok in H.
  destruct (Base64.value (Base64.digit n)) as [v|]; [|discriminate].
  apply andb_true_iff in H as [H _]. apply N.eqb_eq in H. now subst.
Qed.

Lemma digit_not_pad (n : N) : n < 64 -> Base64.is_pad (Base64.digit n) = false.
Proof.
  intro H. apply digit_ok_lt in H. unfold Base64.digit_ok in H.
  destruct (Base64.value (Base64.digit n)) as [v|]; [|discriminate].
  apply andb_true_iff in H as [_ H]. now apply negb_true_iff in H.
Qed.

(** Induction three bytes at a time, the way the encoder consumes them. *)
Lemma list_ind3 (A : Type) (P : list A -> Prop) :
  P [] -> (forall x, P [x]) -> (forall x y, P [x; y]) ->
  (forall x y z l, P l -> P (x :: y :: z :: l)) ->
  forall l, P l.
Proof.
  intros H0 H1 H2 H3.
  assert (H : forall l, P l /\ (forall x, P (x :: l)) /\ (forall x y, P (x :: y :: l))).
  { induction l as [|a l (IH0 & IH1 & IH2)]; repeat split; auto. }
  intro l. apply H.
Qed.

Lemma decode_encode_chars (b : bytes) :
  Base64.decode_chars (Base64.encode_chars b) = Some b.
Proof.
  induction b as [|x|x y|x y z l IH] using list_ind3.
  - reflexivity.
  - pose proof (to_N_lt_256 x) as Hx.
    cbn [Base64.encode_chars Base64.decode_chars].
    change (Base64.is_pad "=") with true. cbv iota.
    rewrite !value_digit by lia.
    f_equal. f_equal. apply byte_of_N_eq. lia.
  - pose proof (to_N_lt_256 x) as Hx. pose proof (to_N_lt_256 y) as Hy.
    cbn [Base64.encode_chars Base64.decode_chars].
    change (Base64.is_pad "=") with true. cbv iota.
    rewrite digit_not_pad by lia.
    rewrite !value_digit by lia.
    f_equal. f_equal; [|f_equal]; apply byte_of_N_eq; lia.
  - pose proof (to_N_lt_256 x) as Hx. pose proof (to_N_lt_256 y) as Hy.
    pose proof (to_N_lt_256 z) as Hz.
    cbn [Base64.encode_chars Base64.decode_chars].
    rewrite digit_not_pad by lia.
    rewrite !value_digit by lia.
    rewrite IH.
    f_equal. f_equal; [|f_equal; [|f_equal]]; apply byte_of_N_eq; lia.
Qed.

Lemma decode_encode (b : bytes) : Base64.decode (Base64.encode b) = Some b.
Proof.
  unfold Base64.decode, Base64.encode.
  rewrite list_ascii_of_string_of_list_ascii. apply decode_encode_chars.
Qed.


(** ** CompactSize *)

Lemma le_bytes_length (k : nat) (n : N) : List.length (CompactSize.le_bytes k n) = k.
Proof. revert n. induction k as [|k IH]; intro n; simpl; [reflexivity|now rewrite IH]. Qed.

Lemma le_value_le_bytes (k : nat) (n : N) :
  CompactSize.le_value (CompactSize.le_bytes k n) = n mod 256 ^ N.of_nat k.
Proof.
  revert n. induction k as [|k IH]; intro n.
  - simpl. now rewrite N.mod_1_r.
  - cbn [CompactSize.le_bytes CompactSize.le_value].
    rewrite to_N_byte_of_N, IH.
    rewrite Nat2N.inj_succ, N.pow_succ_r'.
    now rewrite N.Div0.mod_mul_r.
Qed.

Lemma take_le_bytes (k : nat) (least n : N) (rest : bytes) :
  least <= n -> n < 256 ^ N.of_nat k ->
  CompactSize.take k least (CompactSize.le_bytes k n ++ rest) = Some (n, rest).
Proof.
  intros Hl Hu. unfold CompactSize.take.
  rewrite length_app, le_bytes_length.
  replace (k + List.length rest <? k)%nat with false
    by (symmetry; apply Nat.ltb_ge; lia).
  rewrite firstn_app, le_bytes_length, Nat.sub_diag, firstn_O, app_nil_r.
  rewrite firstn_all2 by (rewrite le_bytes_length; lia).
  rewrite le_value_le_bytes, N.mod_small by trivial.
  replace (n <? least) with false by (symmetry; apply N.ltb_ge; lia).
  rewrite skipn_app, le_bytes_length, Nat.sub_diag, skipn_O.
  rewrite skipn_all2 by (rewrite le_bytes_length; lia).
  reflexivity.
Qed.

Lemma compactSize_decode_encode (n : N) (rest : bytes) :
  n < 2 ^ 64 ->
  CompactSize.decode (CompactSize.encode n ++ rest) = Some (n, rest).
Proof.
  intro H. unfold CompactSize.encode.
  destruct (n <? 253) eqn:E1.
  - apply N.ltb_lt in E1. simpl. rewrite to_N_byte_of_N.
    rewrite N.mod_small by lia.
    apply N.ltb_lt in E1. now rewrite E1.
  - apply N.ltb_ge in E1.
    destruct (n <=? 65535) eqn:E2; [|destruct (n <=? 4294967295) eqn:E3].
    + apply N.leb_le in E2.
      change (CompactSize.decode ((xfd :: CompactSize.le_bytes 2 n) ++ rest))
        with (CompactSize.take 2 253 (CompactSize.le_bytes 2 n ++ rest)).
      apply take_le_bytes; [lia|]. change (256 ^ N.of_nat 2) with 65536. lia.
    + apply N.leb_gt in E2. apply N.leb_le in E3.
      change (CompactSize.decode ((xfe :: CompactSize.le_bytes 4 n) ++ rest))
        with (CompactSize.take 4 65536 (CompactSize.le_bytes 4 n ++ rest)).
      apply take_le_bytes; [lia|]. change (256 ^ N.of_nat 4) with 4294967296. lia.
    + apply N.leb_gt in E3.
      change (CompactSize.decode ((xff :: CompactSize.le_bytes 8 n) ++ rest))
        with (CompactSize.take 8 4294967296 (CompactSize.le_bytes 8 n ++ rest)).
      apply take_le_bytes; [lia|].
      change (256 ^ N.of_nat 8) with (2 ^ 64). lia.
Qed.

Lemma compactSize_encode_nonempty (n : N) : (1 <= List.length (CompactSize.encode n))%nat.
Proof.
  unfold CompactSize.encode.
  destruct (n <? 253); [simpl; lia|].
  destruct (n <=? 65535); [simpl; lia|].
  destruct (n <=? 4294967295); simpl; lia.
Qed.

(** ** The witness stack *)

Lemma read_items_serialized (items : list bytes) (rest : bytes) :
  Forall (fun item => Witness.representable (List.length item)) items ->
  Witness.read_items (List.length items)
    (List.concat (map Witness.serialize_item items) ++ rest) = Some (items, rest).
Proof.
  induction 1 as [|item items Hitem _ IH]; [reflexivity|].
  cbn [List.length map List.concat Witness.read_items].
  unfold Witness.serialize_item at 1.
  rewrite <- !app_assoc.
  rewrite compactSize_decode_encode by exact Hitem.
  rewrite length_app.
  replace (N.of_nat (List.length item + _) <? N.of_nat (List.length item))
    with false by (symmetry; apply N.ltb_ge; lia).
  rewrite Nat2N.id.
  rewrite skipn_app, Nat.sub_diag, skipn_O, skipn_all2 by lia.
  rewrite firstn_app, Nat.sub_diag, firstn_O, app_nil_r, firstn_all2 by lia.
  cbn [app]. now rewrite IH.
Qed.

Lemma serialized_items_length (items : list bytes) :
  (List.length items <= List.length (List.concat (map Witness.serialize_item items)))%nat.
Proof.
  induction items as [|item items IH]; simpl; [lia|].
  rewrite length_app. unfold Witness.serialize_item at 1. rewrite length_app.
  pose proof (compactSize_encode_nonempty (N.of_nat (List.length item))). lia.
Qed.

Lemma deserialize_serialize_stack (items : list bytes) :
  Witness.representable (List.length items) ->
  Forall (fun item => Witness.representable (List.length item)) items ->
  Witness.deserialize_stack (Witness.serialize_stack items) = Ok items.
Proof.
  intros Hn Hitems. unfold Witness.deserialize_stack, Witness.serialize_stack.
  rewrite compactSize_decode_encode by exact Hn.
  pose proof (serialized_items_length items) as Hlen.
  replace (N.of_nat (List.length (List.concat (map Witness.serialize_item items)))
             <? N.of_nat (List.length items))
    with false by (symmetry; apply N.ltb_ge; lia).
  rewrite Nat2N.id.
  rewrite <- (app_nil_r (List.concat _)).
  now rewrite read_items_serialized.
Qed.

(** C7.  Deserializing the serialization of a witness stack gives the
    stack back, same items in the same order, for every stack whose item
    count and item lengths CompactSize can hold (below 2^64, as every
    JavaScript array and buffer is); the empty stack is one of them. *)
Theorem deserialize_serialize :
  forall items : list bytes,
    Witness.representable (List.length items) ->
    Forall (fun item => Witness.representable (List.length item)) items ->
    Witness.deserialize (Witness.serialize items) = Ok items.
Proof.
  intros items Hn Hitems. unfold Witness.deserialize, Witness.serialize.
  rewrite decode_encode. now apply deserialize_serialize_stack.
Qed.

End CodecFacts.

(** * The test helper *)

Module VerifierTestFacts.
Import VerifierTest.

Lemma rem_abs_mod4 (x : Z) : (Z.rem (Z.abs x) 4 =? 0)%Z = (x mod 4 =? 0)%Z.
Proof.
  destruct (Z.eqb_spec (x mod 4) 0) as [E|E].
  - apply Z.eqb_eq. lia.
  - apply Z.eqb_neq. lia.
Qed.

(** What [n] iterations of the loop from [i] on collect. *)
Lemma compatibleFrom_In (buffer : bytes) (h0 : Z) (n : nat) :
  forall (i : Z) (s : string),
    In s (compatibleFrom buffer (Some h0) i n) <->
    exists j, (i <= j < i + Z.of_nat n)%Z /\ ((j - h0) mod 4 = 0)%Z /\
              s = Base64.encode (setFirstByte buffer j).
Proof.
  induction n as [|n IH]; intros i s.
  - simpl. split; [contradiction|]. intros (j & H & _). lia.
  - cbn [compatibleFrom]. rewrite rem_abs_mod4.
    destruct (Z.eqb_spec ((i - h0) mod 4) 0) as [E|E].
    + cbn [In]. rewrite IH. split.
      * intros [<-|(j & Hj & Hc & ->)].
        -- exists i. repeat split; trivial; lia.
        -- exists j. repeat split; trivial; lia.
      * intros (j & Hj & Hc & ->).
        destruct (Z.eq_dec j i) as [->|Hne]; [now left|].
        right. exists j. repeat split; trivial; lia.
    + rewrite IH. split.
      * intros (j & Hj & Hc & ->). exists j. repeat split; trivial; lia.
      * intros (j & Hj & Hc & ->).
        destruct (Z.eq_dec j i) as [->|Hne]; [contradiction|].
        exists j. repeat split; trivial; lia.
Qed.

(** [generateCompatibleSignatures] returns exactly the signatures that
    differ from the given one in the first byte only, the new first byte
    being an [i] between [start] and [end] congruent to the old one
    modulo 4. *)
Theorem generateCompatibleSignatures_members :
  forall (signature0 : string) (h0 : byte) (tail : bytes) (start end_ : Z),
    Base64.decode signature0 = Some (h0 :: tail) ->
    exists compatible,
      generateCompatibleSignatures signature0 start end_ = Some compatible /\
      forall s, In s compatible <->
        exists i, (start <= i <= end_)%Z /\
                  ((i - Z.of_N (Byte.to_N h0)) mod 4 = 0)%Z /\
                  s = Base64.encode (byte_of_N (Z.to_N (i mod 256)) :: tail).
Proof.
  intros signature0 h0 tail start end_ D.
  unfold generateCompatibleSignatures. rewrite D. cbn [hd_error option_map].
  eexists. split; [reflexivity|].
  intro s. rewrite compatibleFrom_In. cbn [setFirstByte].
  split; intros (i & Hi & Hc & ->); exists i; repeat split; trivial; lia.
Qed.

Lemma compatibleFrom_undefined (buffer : bytes) (n : nat) :
  forall i, compatibleFrom buffer None i n = [].
Proof. induction n as [|n IH]; intro i; simpl; [reflexivity|apply IH]. Qed.

(** Nothing is generated from an empty buffer, whose first byte is
    [undefined], nor over an empty range. *)
Theorem generateCompatibleSignatures_nothing :
  forall (signature : string) (buffer : bytes) (start end_ : Z),
    Base64.decode signature = Some buffer ->
    buffer = [] \/ (end_ < start)%Z ->
    generateCompatibleSignatures signature start end_ = Some [].
Proof.
  intros signature buffer start end_ D H.
  unfold generateCompatibleSignatures. rewrite D. f_equal.
  destruct H as [->|H].
  - apply compatibleFrom_undefined.
  - replace (Z.to_nat (end_ - start + 1)) with O by lia. reflexivity.
Qed.

Lemma compatibleFrom_app (buffer : bytes) (r : option Z) (n m : nat) :
  forall i,
    compatibleFrom buffer r i (n + m) =
    compatibleFrom buffer r i n ++ compatibleFrom buffer r (i + Z.of_nat n) m.
Proof.
  induction n as [|n IH]; intro i.
  - simpl. now rewrite Z.add_0_r.
  - cbn [Nat.add compatibleFrom]. rewrite IH.
    replace (i + 1 + Z.of_nat n)%Z with (i + Z.of_nat (S n))%Z by lia.
    destruct r as [h0|]; [|reflexivity].
    now destruct (Z.rem (Z.abs (i - h0)) 4 =? 0)%Z.
Qed.

(** Four consecutive headers hold one of each class modulo 4. *)
Lemma compatibleFrom_four (buffer : bytes) (h0 i : Z) :
  List.length (compatibleFrom buffer (Some h0) i 4) = 1.
Proof.
  cbn [compatibleFrom]. rewrite !rem_abs_mod4.
  destruct (Z.eqb_spec ((i - h0) mod 4) 0);
    destruct (Z.eqb_spec ((i + 1 - h0) mod 4) 0);
    destruct (Z.eqb_spec ((i + 1 + 1 - h0) mod 4) 0);
    destruct (Z.eqb_spec ((i + 1 + 1 + 1 - h0) mod 4) 0);
    try reflexivity; exfalso; lia.
Qed.

(** Over the default range 27..42 a signature has exactly four compatible
    signatures, whatever its header; when the header itself lies in the
    range, the signature (encoded again) is one of them. *)
Theorem generateCompatibleSignatures_default_range :
  forall (signature0 : string) (h0 : byte) (tail : bytes),
    Base64.decode signature0 = Some (h0 :: tail) ->
    exists compatible,
      generateCompatibleSignatures signature0 27 42 = Some compatible
      /\ List.length compatible = 4
      /\ ((27 <= Byte.to_N h0 <= 42)%N -> In (Base64.encode (h0 :: tail)) compatible).
Proof.
  intros signature0 h0 tail D.
  unfold generateCompatibleSignatures. rewrite D. cbn [hd_error option_map].
  eexists. split; [reflexivity|]. split.
  - change (Z.to_nat (42 - 27 + 1)) with (4 + (4 + (4 + 4)))%nat.
    rewrite !compatibleFrom_app, !length_app, !compatibleFrom_four. reflexivity.
  - intro R. apply compatibleFrom_In.
    exists (Z.of_N (Byte.to_N h0)). split; [|split].
    + change (Z.of_nat (Z.to_nat (42 - 27 + 1))) with 16%Z. lia.
    + now rewrite Z.sub_diag.
    + cbn [setFirstByte]. f_equal. f_equal. symmetry.
      apply CodecFacts.byte_of_N_eq.
      pose proof (CodecFacts.to_N_lt_256 h0). lia.
Qed.

(** The loop reads the buffer beyond its first byte, and the first byte
    modulo 4 only. *)
Lemma compatibleFrom_congruent (h0 h0' : byte) (tail : bytes) (n : nat) :
  ((Z.of_N (Byte.to_N h0') - Z.of_N (Byte.to_N h0)) mod 4 = 0)%Z ->
  forall i,
    compatibleFrom (h0' :: tail) (Some (Z.of_N (Byte.to_N h0'))) i n =
    compatibleFrom (h0 :: tail) (Some (Z.of_N (Byte.to_N h0))) i n.
Proof.
  intro Hc. induction n as [|n IH]; intro i; [reflexivity|].
  cbn [compatibleFrom setFirstByte]. rewrite IH, !rem_abs_mod4.
  replace ((i - Z.of_N (Byte.to_N h0')) mod 4 =? 0)%Z
    with ((i - Z.of_N (Byte.to_N h0)) mod 4 =? 0)%Z; [reflexivity|].
  destruct (Z.eqb_spec ((i - Z.of_N (Byte.to_N h0)) mod 4) 0);
    symmetry; [apply Z.eqb_eq|apply Z.eqb_neq]; lia.
Qed.

(** Compatibility is closed: a signature that [generateCompatibleSignatures]
    makes of a given one has, over every range, the same compatible
    signatures as the given one. *)
Theorem generateCompatibleSignatures_closed :
  forall (signature0 signature : string) (h0 : byte) (tail : bytes)
         (start end_ : Z) (compatible : list string),
    Base64.decode signature0 = Some (h0 :: tail) ->
    generateCompatibleSignatures signature0 start end_ = Some compatible ->
    In signature compatible ->
    forall start' end', 
      generateCompatibleSignatures signature start' end' =
      generateCompatibleSignatures signature0 start' end'.
Proof.
  intros signature0 signature h0 tail start end_ compatible D G Hin start' end'.
  unfold generateCompatibleSignatures in *. rewrite D in *.
  cbn [hd_error option_map] in *.
  assert (E : compatibleFrom (h0 :: tail) (Some (Z.of_N (Byte.to_N h0))) start
                (Z.to_nat (end_ - start + 1)) = compatible).
  { now destruct compatible; inversion G. }
  clear G. subst compatible.
  apply compatibleFrom_In in Hin as (i & _ & Hc & ->).
  cbn [setFirstByte]. rewrite CodecFacts.decode_encode.
  cbn [hd_error option_map]. f_equal.
  apply compatibleFrom_congruent.
  rewrite CodecFacts.to_N_byte_of_N. lia.
Qed.

End VerifierTestFacts.

(** * The legacy verifier *)

Module VerifierFacts.
Import Address Verifier.

Section WithLibs.
Context {lib : BitcoinLib} {ec : EllipticLib} {crypto : CryptoLib}.
Variable verifyBIP322 : string -> string -> string -> result failure bool.

(** A signature that decodes to 65 bytes is checked by the legacy verifier,
    once the address has passed the validity check. *)
Lemma verifySignature_legacy (address message signature : string) (buffer : bytes) :
  Base64.decode signature = Some buffer ->
  List.length buffer = 65 ->
  verifySignature verifyBIP322 address message signature =
    (valid <- raise_as Uncaught (isValidBitcoinAddress address) ;;
     if negb valid then Throw InvalidAddress
     else verifyLegacy address (list_byte_of_string message) buffer).
Proof.
  intros Hd Hl. unfold verifySignature. now rewrite Hd, Hl.
Qed.

Lemma recId_congruent (h0 h : byte) :
  headerInRange h0 = true -> headerInRange h = true ->
  ((Z.of_N (Byte.to_N h) - Z.of_N (Byte.to_N h0)) mod 4 = 0)%Z ->
  recId h = recId h0.
Proof.
  unfold headerInRange, recId. intros H0 H Hc.
  apply andb_true_iff in H0 as [A0 B0]. apply andb_true_iff in H as [A B].
  apply N.leb_le in A0, B0, A, B. lia.
Qed.

Lemma verifyLegacy_header (address : string) (message : bytes) (h0 h : byte) (rs : bytes) :
  headerInRange h0 = true -> headerInRange h = true ->
  recId h = recId h0 ->
  verifyLegacy address message (h :: rs) = verifyLegacy address message (h0 :: rs).
Proof.
  intros H0 H Hr. unfold verifyLegacy. cbn [List.length].
  now rewrite H0, H, Hr.
Qed.

Lemma Some_inj (A : Type) (x y : A) : Some x = Some y -> x = y.
Proof. intro H. now injection H. Qed.

Lemma verifySignature_congruent_headers
    (address message signature0 signature : string) (h0 h : byte) (rs : bytes) :
  Base64.decode signature0 = Some (h0 :: rs) ->
  Base64.decode signature = Some (h :: rs) ->
  List.length rs = 64 ->
  headerInRange h0 = true ->
  headerInRange h = true ->
  ((Z.of_N (Byte.to_N h) - Z.of_N (Byte.to_N h0)) mod 4 = 0)%Z ->
  verifySignature verifyBIP322 address message signature =
  verifySignature verifyBIP322 address message signature0.
Proof.
  intros D0 D L H0 H Hc.
  rewrite (verifySignature_legacy address message _ _ D0) by (simpl; now rewrite L).
  rewrite (verifySignature_legacy address message _ _ D) by (simpl; now rewrite L).
  rewrite (verifyLegacy_header address (list_byte_of_string message) h0 h rs H0 H)
    by now apply recId_congruent.
  reflexivity.
Qed.

(** C3.  Take a legacy signature, 65 bytes with a header [h0] in 27..42.
    The signature with the header replaced by any [h] in 27..42 congruent
    to [h0] modulo 4 gets the same answer from [verifySignature] as the
    original, for every address and every message: the address type the
    header encodes is never read.  So does every signature that the tests'
    [generateCompatibleSignatures] makes of it over the range 27..42. *)
Theorem legacy_header_class_equivalence :
  forall (address message signature0 : string) (h0 : byte) (rs : bytes),
    Base64.decode signature0 = Some (h0 :: rs) ->
    List.length rs = 64 ->
    headerInRange h0 = true ->
    (forall (signature : string) (h : byte),
        Base64.decode signature = Some (h :: rs) ->
        headerInRange h = true ->
        ((Z.of_N (Byte.to_N h) - Z.of_N (Byte.to_N h0)) mod 4 = 0)%Z ->
        verifySignature verifyBIP322 address message signature =
        verifySignature verifyBIP322 address message signature0)
    /\ (forall (compatible : list string) (signature : string),
        VerifierTest.generateCompatibleSignatures signature0 27 42 = Some compatible ->
        In signature compatible ->
        verifySignature verifyBIP322 address message signature =
        verifySignature verifyBIP322 address message signature0).
Proof.
  intros address message signature0 h0 rs D0 L H0. split.
  - intros signature h D H Hc.
    now apply (verifySignature_congruent_headers address message _ _ _ _ _ D0 D).
  - intros compatible signature G Hin.
    unfold VerifierTest.generateCompatibleSignatures in G.
    rewrite D0 in G. cbn [hd_error option_map] in G.
    apply Some_inj in G. subst compatible.
    apply VerifierTestFacts.compatibleFrom_In in Hin as (i & Hi & Hc & ->).
    cbn [VerifierTest.setFirstByte].
    set (h := byte_of_N (Z.to_N (i mod 256))).
    assert (Hh : Byte.to_N h = Z.to_N i).
    { unfold h. rewrite CodecFacts.to_N_byte_of_N. lia. }
    apply (verifySignature_congruent_headers address message _ _ _ _ _ D0
             (CodecFacts.decode_encode (h :: rs)) L H0).
    + unfold headerInRange. rewrite Hh.
      apply andb_true_iff. split; apply N.leb_le; lia.
    + rewrite Hh. rewrite Z2N.id by lia. exact Hc.
Qed.

Lemma existsb_eqb_In (address : string) (l : list string) :
  existsb (String.eqb address) l = true <-> In address l.
Proof.
  rewrite existsb_exists. split.
  - intros (x & Hin & Heq). apply String.eqb_eq in Heq. now subst.
  - intro Hin. exists address. split; [trivial|apply String.eqb_refl].
Qed.

Lemma derivedAddresses_inv (key : bytes) (derived : list string) :
  derivedAddresses key = Ok derived ->
  exists uncompressed compressed a1 a2 a3 a4 a5,
    uncompressPublicKey key = Ok uncompressed /\
    compressPublicKey key = Ok compressed /\
    convertPubKeyIntoAddress uncompressed type_p2pkh = Ok a1 /\
    convertPubKeyIntoAddress compressed type_p2pkh = Ok a2 /\
    convertPubKeyIntoAddress compressed type_p2sh_p2wpkh = Ok a3 /\
    convertPubKeyIntoAddress compressed type_p2wpkh = Ok a4 /\
    convertPubKeyIntoAddress compressed type_p2tr = Ok a5 /\
    derived = [mainnet a1; testnet_ a1; mainnet a2; testnet_ a2;
               mainnet a3; testnet_ a3; mainnet a4; testnet_ a4;
               mainnet a5; testnet_ a5].
Proof.
  unfold derivedAddresses. intro H.
  destruct (uncompressPublicKey key) as [u|?] eqn:Eu; [|discriminate].
  destruct (compressPublicKey key) as [c|?] eqn:Ec; [|discriminate].
  cbn [raise_as bind] in H.
  destruct (convertPubKeyIntoAddress u type_p2pkh) as [a1|?] eqn:E1; [|discriminate].
  destruct (convertPubKeyIntoAddress c type_p2pkh) as [a2|?] eqn:E2; [|discriminate].
  destruct (convertPubKeyIntoAddress c type_p2sh_p2wpkh) as [a3|?] eqn:E3; [|discriminate].
  destruct (convertPubKeyIntoAddress c type_p2wpkh) as [a4|?] eqn:E4; [|discriminate].
  destruct (convertPubKeyIntoAddress c type_p2tr) as [a5|?] eqn:E5; [|discriminate].
  cbn [raise_as bind] in H. injection H as <-.
  exists u, c, a1, a2, a3, a4, a5. now repeat split.
Qed.

(** C4.  Let a legacy signature (65 bytes, header in 27..42) over a message
    recover to a key.  The addresses derived from the key are the P2PKH
    addresses of its uncompressed and of its compressed form and the
    P2SH-P2WPKH, P2WPKH and P2TR addresses of its compressed form, each for
    mainnet and testnet.  On a valid address, [verifySignature] returns
    [true] when the address is one of them and [false] when it is not. *)
Theorem legacy_signature_proves_derived_addresses :
  forall (address message signature : string) (header : byte) (rs key : bytes)
         (derived : list string),
    Base64.decode signature = Some (header :: rs) ->
    List.length rs = 64 ->
    headerInRange header = true ->
    ecdsaRecover (messageHash (list_byte_of_string message))
      (firstn 32 rs) (skipn 32 rs) (recId header) = Some key ->
    derivedAddresses key = Ok derived ->
    isValidBitcoinAddress address = Ok true ->
    (In address derived ->
       verifySignature verifyBIP322 address message signature = Ok true)
    /\ (~ In address derived ->
       verifySignature verifyBIP322 address message signature = Ok false)
    /\ exists uncompressed compressed a1 a2 a3 a4 a5,
         uncompressPublicKey key = Ok uncompressed /\
         compressPublicKey key = Ok compressed /\
         convertPubKeyIntoAddress uncompressed type_p2pkh = Ok a1 /\
         convertPubKeyIntoAddress compressed type_p2pkh = Ok a2 /\
         convertPubKeyIntoAddress compressed type_p2sh_p2wpkh = Ok a3 /\
         convertPubKeyIntoAddress compressed type_p2wpkh = Ok a4 /\
         convertPubKeyIntoAddress compressed type_p2tr = Ok a5 /\
         derived = [mainnet a1; testnet_ a1; mainnet a2; testnet_ a2;
                    mainnet a3; testnet_ a3; mainnet a4; testnet_ a4;
                    mainnet a5; testnet_ a5].
Proof.
  intros address message signature header rs key derived D L H R Hd V.
  assert (E : verifySignature verifyBIP322 address message signature =
              Ok (existsb (String.eqb address) derived)).
  { rewrite (verifySignature_legacy address message _ _ D) by (simpl; now rewrite L).
    rewrite V. cbn [raise_as bind negb].
    unfold verifyLegacy. cbn [List.length]. rewrite L, H, R, Hd. reflexivity. }
  split; [|split].
  - intro Hin. rewrite E. f_equal. now apply existsb_eqb_In.
  - intro Hnot. rewrite E. f_equal.
    destruct (existsb (String.eqb address) derived) eqn:X; [|reflexivity].
    apply existsb_eqb_In in X. contradiction.
  - now apply derivedAddresses_inv.
Qed.

End WithLibs.

End VerifierFacts.

(** * The theorems on the test vectors *)

Module OnTestVectors.
Import Address Verifier TestVectors.
Local Open Scope string_scope.

(** The malformed P2WPKH address of the test "Reject verification from
    malformed address": a valid address with one character appended. *)
Lemma isP2WPKH_throws_on_malformed :
  isP2WPKH "bc1q9vza2e8x573nczrlzms0wvx3gsqjx7vavgkx0lm"
  = Throw (Error "Unknown address type").
Proof.
  apply (proj1 (proj2 (AddressFacts.isP2WPKH_throws_on_undecodable
                         "bc1q9vza2e8x573nczrlzms0wvx3gsqjx7vavgkx0lm"
                         (or_introl eq_refl))));
    vm_compute; discriminate.
Defined.

(** A stack of a two-byte item and an empty item survives the round trip. *)
Lemma deserialize_serialize_two_items :
  Witness.deserialize (Witness.serialize [[x30; x45]; []]) = Ok [[x30; x45]; []].
Proof.
  apply CodecFacts.deserialize_serialize.
  - vm_compute. reflexivity.
  - repeat constructor.
Defined.

(** [signatureBase] has header 32; with header 36 it is one of the
    signatures [generateCompatibleSignatures] makes of it, and it gets the
    same answer. *)
Lemma header_36_verifies_like_header_32 :
  verifySignature noBIP322 "bc1ql64jd2pewssuuehu6g7kh6ud54amq5n8t95eeq" message
    "JAtVrymJqo43BCt9f7Dhl6ET4Gg3SmhyvdlW6wn9iWc9PweD7tNM5+qw7xE9/bzlw/Et789AQ2F59YKEnSzQudo="
  = verifySignature noBIP322 "bc1ql64jd2pewssuuehu6g7kh6ud54amq5n8t95eeq" message
      signatureBase.
Proof.
  refine (proj1 (VerifierFacts.legacy_header_class_equivalence noBIP322
                   "bc1ql64jd2pewssuuehu6g7kh6ud54amq5n8t95eeq" message signatureBase
                   x20 signatureBody _ _ _)
            "JAtVrymJqo43BCt9f7Dhl6ET4Gg3SmhyvdlW6wn9iWc9PweD7tNM5+qw7xE9/bzlw/Et789AQ2F59YKEnSzQudo="
            x24 _ _ _);
    vm_compute; reflexivity.
Defined.

(** The P2WPKH mainnet address of the key that signed [signatureBase] is
    accepted. *)
Lemma legacy_signature_proves_p2wpkh_address :
  verifySignature noBIP322 "bc1ql64jd2pewssuuehu6g7kh6ud54amq5n8t95eeq" message
    signatureBase = Ok true.
Proof.
  refine (proj1 (VerifierFacts.legacy_signature_proves_derived_addresses noBIP322
                   "bc1ql64jd2pewssuuehu6g7kh6ud54amq5n8t95eeq" message signatureBase
                   x20 signatureBody publicKey
                   [ "1Nji71ru2dMty4CPGNoXsqoU4byok8toqm";
                     "n3FfQ4wsqeo9kAfzywmuhm1nvbaWc4TpvC";
                     "1QDZfWJTVXqHFmJFRkyrnidvHyPyG5bynY";
                     "n4jWxZPSJZGY2sms9KxEcdrF9xzgEbrHHj";
                     "36mTiayp1ZCcMr8t8KDdnVGSiz7Pd1cNie";
                     "2MxKfnKuqd1hxZdmRoSqWQSFhwLKZRQ3NpZ";
                     "bc1ql64jd2pewssuuehu6g7kh6ud54amq5n8t95eeq";
                     "tb1ql64jd2pewssuuehu6g7kh6ud54amq5n8pr02zn";
                     "bc1p5tm5kzqpflhxkkzhl7x4f0nnfygp38hxz4erdq4ffhpqgmgket9s34fgdd";
                     "tb1p5tm5kzqpflhxkkzhl7x4f0nnfygp38hxz4erdq4ffhpqgmgket9sxal8hz" ]
                   _ _ _ _ _ _) _);
    try (vm_compute; reflexivity).
  do 6 right. left. reflexivity.
Defined.

(** The signatures the tests make of [signatureBase]. *)
Lemma generateCompatibleSignatures_of_signatureBase :
  exists compatible,
    VerifierTest.generateCompatibleSignatures signatureBase 27 42 = Some compatible /\
    forall s, In s compatible <->
      exists i, (27 <= i <= 42)%Z /\ ((i - 32) mod 4 = 0)%Z /\
                s = Base64.encode (byte_of_N (Z.to_N (i mod 256)) :: signatureBody).
Proof.
  apply (VerifierTestFacts.generateCompatibleSignatures_members
           signatureBase x20 signatureBody 27 42).
  vm_compute. reflexivity.
Defined.

(** The malformed P2TR address of the tests. *)
Lemma convertAdressToScriptPubkey_malformed_taproot :
  convertAdressToScriptPubkey
    "bc1ppv609nr0vr25u07u95waq5lucwfm6tde4nydujnu8npg4q75mr5sxq8lt3m"
  = Throw (Error "Unknown address type").
Proof.
  apply AddressFacts.convertAdressToScriptPubkey_taproot_length.
  - vm_compute. reflexivity.
  - vm_compute. discriminate.
Defined.

(** The P2WPKH address of the BIP-322 vectors, and the P2WSH address of
    the tests. *)
Lemma isP2WPKH_of_vector_address :
  isP2WPKH "bc1q9vza2e8x573nczrlzms0wvx3gsqjx7vavgkx0l" = Ok true.
Proof.
  apply (AddressFacts.isP2WPKH_decides_by_script_length
           "bc1q9vza2e8x573nczrlzms0wvx3gsqjx7vavgkx0l"
           (hex "00142b05d564e6a7a33c087f16e0f730d1440123799d")).
  vm_compute. reflexivity.
Defined.

Example isP2WPKH_of_p2wsh_address :
  isP2WPKH "bc1qrp33g0q5c5txsp9arysrx4k6zdkfs4nce4xj0gdcccefvpysxf3qccfmv3" = Ok false.
Proof. vm_compute. reflexivity. Qed.

Lemma convertAdressToScriptPubkey_of_regtest_address :
  convertAdressToScriptPubkey "bcrt1q9vza2e8x573nczrlzms0wvx3gsqjx7vay85cr9"
  = Throw (Error "Unknown address type").
Proof.
  apply AddressFacts.convertAdressToScriptPubkey_regtest_bech32.
  vm_compute. reflexivity.
Defined.

Lemma convertPubKeyIntoAddress_p2tr_of_publicKey :
  convertPubKeyIntoAddress publicKey type_p2tr =
  convertPubKeyIntoAddress (subarray 1 33 publicKey) type_p2tr.
Proof.
  apply AddressFacts.convertPubKeyIntoAddress_p2tr_xonly.
  vm_compute. reflexivity.
Defined.

(** The script of the P2WPKH address of the BIP-322 vectors. *)
Lemma convertAdressToScriptPubkey_of_vector_address :
  exists kind p,
    payments kind (WithAddress "bc1q9vza2e8x573nczrlzms0wvx3gsqjx7vavgkx0l")
      (if char_is "bc1q9vza2e8x573nczrlzms0wvx3gsqjx7vavgkx0l" 0 "1"
          || char_is "bc1q9vza2e8x573nczrlzms0wvx3gsqjx7vavgkx0l" 0 "3"
          || char_is "bc1q9vza2e8x573nczrlzms0wvx3gsqjx7vavgkx0l" 0 "b"
       then bitcoin else testnet) = Ok p
    /\ pay_output p = hex "00142b05d564e6a7a33c087f16e0f730d1440123799d"
    /\ ((kind = p2pkh /\ isP2PKH "bc1q9vza2e8x573nczrlzms0wvx3gsqjx7vavgkx0l" = true)
        \/ (kind = p2sh /\ isP2SH "bc1q9vza2e8x573nczrlzms0wvx3gsqjx7vavgkx0l" = true)
        \/ (kind = p2wpkh
            /\ String.length "bc1q9vza2e8x573nczrlzms0wvx3gsqjx7vavgkx0l" = 42
            /\ (slice0 4 "bc1q9vza2e8x573nczrlzms0wvx3gsqjx7vavgkx0l" = "bc1q"
                \/ slice0 4 "bc1q9vza2e8x573nczrlzms0wvx3gsqjx7vavgkx0l" = "tb1q"))
        \/ (kind = p2wsh
            /\ String.length "bc1q9vza2e8x573nczrlzms0wvx3gsqjx7vavgkx0l" = 62
            /\ (slice0 4 "bc1q9vza2e8x573nczrlzms0wvx3gsqjx7vavgkx0l" = "bc1q"
                \/ slice0 4 "bc1q9vza2e8x573nczrlzms0wvx3gsqjx7vavgkx0l" = "tb1q"))
        \/ (kind = p2tr
            /\ String.length "bc1q9vza2e8x573nczrlzms0wvx3gsqjx7vavgkx0l" = 62
            /\ isP2TR "bc1q9vza2e8x573nczrlzms0wvx3gsqjx7vavgkx0l" = true)).
Proof.
  apply (AddressFacts.convertAdressToScriptPubkey_returns_prefix_payment
           "bc1q9vza2e8x573nczrlzms0wvx3gsqjx7vavgkx0l"
           (hex "00142b05d564e6a7a33c087f16e0f730d1440123799d")).
  vm_compute. reflexivity.
Defined.

(** The empty string is of no known address type. *)
Lemma convertAdressToScriptPubkey_of_empty_string :
  convertAdressToScriptPubkey "" = Throw (Error "Unknown address type").
Proof.
  apply AddressFacts.convertAdressToScriptPubkey_unknown_type.
  - reflexivity.
  - reflexivity.
  - intros [H|H]; discriminate H.
  - intro H. discriminate H.
Defined.

(** The regtest form of the P2WPKH vector address. *)
Lemma regtest_address_valid_without_script :
  @isValidBitcoinAddress RegtestVector.bitcoinLib RegtestVector.address = Ok true
  /\ @convertAdressToScriptPubkey RegtestVector.bitcoinLib RegtestVector.address
     = Throw (Error "Unknown address type").
Proof.
  apply (@AddressFacts.regtest_bech32_valid_without_script
           RegtestVector.bitcoinLib RegtestVector.address);
    vm_compute; reflexivity.
Defined.

(** The empty signature decodes to the empty buffer. *)
Lemma generateCompatibleSignatures_of_empty_signature :
  VerifierTest.generateCompatibleSignatures "" 27 42 = Some [].
Proof.
  apply (VerifierTestFacts.generateCompatibleSignatures_nothing "" [] 27 42).
  - vm_compute. reflexivity.
  - left. reflexivity.
Defined.

(** [signatureBase] has four compatible signatures and is one of them
    (the test checks the latter before it verifies any of them). *)
Lemma generateCompatibleSignatures_default_of_signatureBase :
  exists compatible,
    VerifierTest.generateCompatibleSignatures signatureBase 27 42 = Some compatible
    /\ List.length compatible = 4
    /\ ((27 <= Byte.to_N x20 <= 42)%N ->
        In (Base64.encode (x20 :: signatureBody)) compatible).
Proof.
  apply (VerifierTestFacts.generateCompatibleSignatures_default_range
           signatureBase x20 signatureBody).
  vm_compute. reflexivity.
Defined.

(** The signature with header 36 has the compatible signatures of
    [signatureBase]. *)
Lemma generateCompatibleSignatures_closed_on_signatureBase :
  VerifierTest.generateCompatibleSignatures
    "JAtVrymJqo43BCt9f7Dhl6ET4Gg3SmhyvdlW6wn9iWc9PweD7tNM5+qw7xE9/bzlw/Et789AQ2F59YKEnSzQudo="
    0 255
  = VerifierTest.generateCompatibleSignatures signatureBase 0 255.
Proof.
  refine (VerifierTestFacts.generateCompatibleSignatures_closed
           signatureBase
           "JAtVrymJqo43BCt9f7Dhl6ET4Gg3SmhyvdlW6wn9iWc9PweD7tNM5+qw7xE9/bzlw/Et789AQ2F59YKEnSzQudo="
           x20 signatureBody 27 42
           [ "HAtVrymJqo43BCt9f7Dhl6ET4Gg3SmhyvdlW6wn9iWc9PweD7tNM5+qw7xE9/bzlw/Et789AQ2F59YKEnSzQudo=";
             "IAtVrymJqo43BCt9f7Dhl6ET4Gg3SmhyvdlW6wn9iWc9PweD7tNM5+qw7xE9/bzlw/Et789AQ2F59YKEnSzQudo=";
             "JAtVrymJqo43BCt9f7Dhl6ET4Gg3SmhyvdlW6wn9iWc9PweD7tNM5+qw7xE9/bzlw/Et789AQ2F59YKEnSzQudo=";
             "KAtVrymJqo43BCt9f7Dhl6ET4Gg3SmhyvdlW6wn9iWc9PweD7tNM5+qw7xE9/bzlw/Et789AQ2F59YKEnSzQudo=" ]
           _ _ _ 0%Z 255%Z).
  - vm_compute. reflexivity.
  - vm_compute. reflexivity.
  - right. right. left. reflexivity.
Defined.

(** The signatures of the published BIP-322 vectors decode to the witness
    shapes of the two supported spends: a P2WPKH witness, and a single
    65-byte item that ends in [SIGHASH_ALL]. *)
Example bip322_vector_signatures_decode :
  match Witness.deserialize
          "AkcwRAIgM2gBAQqvZX15ZiysmKmQpDrG83avLIT492QBzLnQIxYCIBaTpOaD20qRlEylyxFSeEA2ba9YOixpX8z46TSDtS40ASECx/EgAxlkQpQ9hYjgGu6EBCPMVPwVIVJqO4XCsMvViHI="
  with
  | Ok witness => isP2WPKHWitness witness
  | Throw _ => false
  end = true
  /\ match Witness.deserialize
             "AUHd69PrJQEv+oKTfZ8l+WROBHuy9HKrbFCJu7U1iK2iiEy1vMU5EfMtjc+VSHM7aU0SDbak5IUZRVno2P5mjSafAQ=="
     with
     | Ok [item] => (List.length item =? 65)%nat && byte_is item 64 x01
     | _ => false
     end = true.
Proof. split; vm_compute; reflexivity. Qed.

(** The loop of the test: every address derived from the key is accepted
    and the four unrelated mainnet addresses of the tables are refused. *)
Example legacy_test_addresses :
  map (fun a => verifySignature noBIP322 a message signatureBase)
    [ "1Nji71ru2dMty4CPGNoXsqoU4byok8toqm"; "n3FfQ4wsqeo9kAfzywmuhm1nvbaWc4TpvC";
      "1QDZfWJTVXqHFmJFRkyrnidvHyPyG5bynY"; "n4jWxZPSJZGY2sms9KxEcdrF9xzgEbrHHj";
      "36mTiayp1ZCcMr8t8KDdnVGSiz7Pd1cNie"; "2MxKfnKuqd1hxZdmRoSqWQSFhwLKZRQ3NpZ";
      "bc1ql64jd2pewssuuehu6g7kh6ud54amq5n8t95eeq";
      "tb1ql64jd2pewssuuehu6g7kh6ud54amq5n8pr02zn";
      "bc1p5tm5kzqpflhxkkzhl7x4f0nnfygp38hxz4erdq4ffhpqgmgket9s34fgdd";
      "tb1p5tm5kzqpflhxkkzhl7x4f0nnfygp38hxz4erdq4ffhpqgmgket9sxal8hz";
      "1F3sAm6ZtwLAUnj7d38pGFxtP3RVEvtsbV";
      "bc1q9vza2e8x573nczrlzms0wvx3gsqjx7vavgkx0l";
      "bc1ppv609nr0vr25u07u95waq5lucwfm6tde4nydujnu8npg4q75mr5sxq8lt3" ]
  = [ Ok true; Ok true; Ok true; Ok true; Ok true; Ok true; Ok true; Ok true;
      Ok true; Ok true; Ok false; Ok false; Ok false ].
Proof. vm_compute. reflexivity. Qed.

End OnTestVectors.
